(** * AIOpsEnv: the EV charging calculator (src/app/calculator.py)

    A shallow embedding of class [Calculator] and the properties of its
    billing and solar-savings simulations.

    Modelling conventions.
    - Python [int] is [Z]; Python [float] is modelled by the exact rational
      it denotes ([Q]), so [1.1] is [11/10] and no binary rounding error is
      represented.  [round(x, n)] is round-half-to-even at [n] decimals.
    - A date string "dd/mm/yyyy" (or "yyyy-mm-dd") is the record [date] of
      its three integers; [datetime.datetime(...)] is the constructor
      [datetime], which raises [ValueError] on a non-existent day.
    - A time string "HH:MM" or "HH:MM:SS" is the record [clock].
    - A call either returns or raises: [outcome].  Where the source
      returns [-1] in place of a number the sentinel stays in-band
      ([Ret (-1)]); where it returns [-1] in place of a record or a list,
      it is [None] (or the constructor [MinusOne]).
    - The remote providers, the clock and the file data/termdates.json are
      the fields of [Env]. *)

From Stdlib Require Import ZArith QArith Qround List String Ascii Bool Lia Lqa.
From Stdlib Require Import DecimalString Sorted Permutation.
Import ListNotations.

Local Open Scope Z_scope.

(** ** Outcomes of a call: a value or a raised exception *)

Inductive exn : Type :=
| ValueError
| TypeError
| IndexError
| ZeroDivisionError
| OverflowError.

Inductive outcome (A : Type) : Type :=
| Ret (a : A)
| Raise (e : exn).

Arguments Ret {A} a.
Arguments Raise {A} e.

Definition bind {A B : Type} (c : outcome A) (k : A -> outcome B) : outcome B :=
  match c with
  | Ret a => k a
  | Raise e => Raise e
  end.

Notation "x <- c ;; k" := (bind c (fun x => k))
  (at level 61, c at next level, right associativity).

(** [try: body except ValueError: handler] *)
Definition try_ValueError {A : Type} (body handler : outcome A) : outcome A :=
  match body with
  | Raise ValueError => handler
  | other => other
  end.

(** ** Numbers *)

Module Num.

(** [round(x)] to an integer, ties to the even neighbour. *)
Definition round_half_even (x : Q) : Z :=
  let f := Qfloor x in
  match Qcompare (x - inject_Z f) (1 # 2) with
  | Lt => f
  | Gt => f + 1
  | Eq => if Z.even f then f else f + 1
  end.

(** [round(x, ndigits)] *)
Definition py_round (x : Q) (ndigits : positive) : Q :=
  let scale := inject_Z (Z.pow_pos 10 ndigits) in
  (inject_Z (round_half_even (x * scale)) / scale)%Q.

(** [int(x)] on a float: truncation toward zero. *)
Definition py_int (x : Q) : Z := Z.quot (Qnum x) (Zpos (Qden x)).

(** [a / b] on floats. *)
Definition py_div (a b : Q) : outcome Q :=
  if Qeq_bool b 0 then Raise ZeroDivisionError else Ret (a / b)%Q.

(** [l[i]] with Python's negative indices. *)
Definition py_index {A : Type} (l : list A) (i : Z) : outcome A :=
  let n := Z.of_nat (List.length l) in
  let j := if i <? 0 then n + i else i in
  if (0 <=? j) && (j <? n)
  then match nth_error l (Z.to_nat j) with
       | Some a => Ret a
       | None => Raise IndexError
       end
  else Raise IndexError.

End Num.
Import Num.

(** ** Calendar dates, after CPython's [datetime] *)

Record date : Type := mkdate { day : Z; month : Z; year : Z }.

Record clock : Type := mkclock { hh : Z; mm : Z; ss : Z }.

Module Cal.

Definition is_leap (y : Z) : bool :=
  (y mod 4 =? 0) && (negb (y mod 100 =? 0) || (y mod 400 =? 0)).

Definition days_in_month (y m : Z) : Z :=
  if m =? 2 then (if is_leap y then 29 else 28)
  else if (m =? 4) || (m =? 6) || (m =? 9) || (m =? 11) then 30
  else 31.

Definition valid_date (d : date) : bool :=
  (1 <=? year d) && (year d <=? 9999) &&
  (1 <=? month d) && (month d <=? 12) &&
  (1 <=? day d) && (day d <=? days_in_month (year d) (month d)).

(** [datetime.datetime(year=.., month=.., day=..)] *)
Definition datetime (d : date) : outcome date :=
  if valid_date d then Ret d else Raise ValueError.

Definition valid_clock (t : clock) : bool :=
  (0 <=? hh t) && (hh t <=? 23) && (0 <=? mm t) && (mm t <=? 59) &&
  (0 <=? ss t) && (ss t <=? 59).

Definition days_before_year (y : Z) : Z :=
  let y' := y - 1 in y' * 365 + y' / 4 - y' / 100 + y' / 400.

Fixpoint days_before_month_aux (y : Z) (m : nat) : Z :=
  match m with
  | O => 0
  | S m' => days_before_month_aux y m' + days_in_month y (Z.of_nat m)
  end.

Definition days_before_month (y m : Z) : Z :=
  days_before_month_aux y (Z.to_nat (m - 1)).

Definition toordinal (d : date) : Z :=
  days_before_year (year d) + days_before_month (year d) (month d) + day d.

(** [d.weekday()]: Monday is 0, Sunday is 6. *)
Definition weekday (d : date) : Z := (toordinal d + 6) mod 7.

Definition date_eqb (a b : date) : bool :=
  (year a =? year b) && (month a =? month b) && (day a =? day b).

Definition date_ltb (a b : date) : bool :=
  (year a <? year b) ||
  ((year a =? year b) &&
   ((month a <? month b) || ((month a =? month b) && (day a <? day b)))).

Definition date_leb (a b : date) : bool := date_ltb a b || date_eqb a b.

(** [d + timedelta(days=1)] *)
Definition add_one_day (d : date) : outcome date :=
  if day d <? days_in_month (year d) (month d)
  then Ret (mkdate (day d + 1) (month d) (year d))
  else if month d <? 12 then Ret (mkdate 1 (month d + 1) (year d))
  else if year d <? 9999 then Ret (mkdate 1 1 (year d + 1))
  else Raise OverflowError.

(** [d - timedelta(days=1)] *)
Definition sub_one_day (d : date) : outcome date :=
  if 1 <? day d then Ret (mkdate (day d - 1) (month d) (year d))
  else if 1 <? month d
  then Ret (mkdate (days_in_month (year d) (month d - 1)) (month d - 1) (year d))
  else if 1 <? year d then Ret (mkdate 31 12 (year d - 1))
  else Raise OverflowError.

(** [d.replace(year=y)] *)
Definition replace_year (d : date) (y : Z) : outcome date :=
  datetime (mkdate (day d) (month d) y).

End Cal.
Import Cal.

(** ** The environment of one computation *)

(** One record of the public-holiday registry. *)
Record holiday : Type := mkholiday { h_Date : date; h_Jurisdiction : string }.

(** One entry of "hourlyWeatherHistory". *)
Record hourly : Type := mkhourly { w_hour : Z; w_cloudCoverPct : Q }.

(** The weather provider's answer for one location and date. *)
Record solar : Type := mksolar {
  s_sunrise : clock;
  s_sunset : clock;
  s_sunHours : Q;
  s_hourlyWeatherHistory : list hourly
}.

(** [now] is [datetime.datetime.now().date()].  [termdates] is the content
    of data/termdates.json, a file that is not part of the sources: per
    state the list of term windows, already parsed.  Each provider answers
    [None] when its HTTP response is not [ok]; the holiday registry is
    indexed by the date being looked up, so that it may answer for one day
    of a session and fail for the next. *)
Record Env : Type := mkEnv {
  now : date;
  termdates : list (string * list (date * date));
  public_holiday_api : date -> option (list holiday);
  location_api : Z -> option (list (string * string));
  weather_api : string -> date -> option solar
}.

(** ** class Calculator *)

Section Calculator.

Variable env : Env.

Local Open Scope Q_scope.

(** [get_power]: the (power, cost) pair of a charger configuration. *)
Definition get_power (charger_configuration : Z) : Q * Q :=
  if (charger_configuration =? 1)%Z then (2, 5)
  else if (charger_configuration =? 2)%Z then (3.6, 7.5)
  else if (charger_configuration =? 3)%Z then (7.2, 10)
  else if (charger_configuration =? 4)%Z then (11, 12.5)
  else if (charger_configuration =? 5)%Z then (22, 15)
  else if (charger_configuration =? 6)%Z then (36, 20)
  else if (charger_configuration =? 7)%Z then (90, 30)
  else (350, 50).

(** [time_calculation]: the four arguments go through [float(...)]. *)
Definition time_calculation (initial_state final_state capacity power : Q)
  : outcome Q :=
  time <- py_div ((final_state - initial_state) / 100 * capacity) power ;;
  Ret (py_round (time * 60) 2).

(** [is_peak] *)
Definition is_peak (inputMinute : Z) : bool :=
  ((360 <=? inputMinute) && (inputMinute <? 1080))%Z.

(** [get_minute_from_start_time] and [convert_time_to_minutes_passed] *)
Definition get_minute_from_start_time (start_time : clock) : Z :=
  (hh start_time * 60 + mm start_time)%Z.

Definition convert_time_to_minutes_passed (time : clock) : Z :=
  (hh time * 60 + mm time)%Z.

(** [get_next_date] *)
Definition get_next_date (d : date) : outcome date :=
  date_time_val <- datetime d ;;
  add_one_day date_time_val.

(** [is_date_weekday] *)
Definition is_date_weekday (d : date) : outcome bool :=
  date_time <- datetime d ;;
  Ret (weekday date_time <? 5)%Z.

(** [is_date_in_school_term]: the inner loop over the windows of one state,
    then the outer loop over the entries of the file. *)
Fixpoint in_term_windows (current_date : date) (dates : list (date * date))
  : bool :=
  match dates with
  | [] => false
  | (term_start_date, term_end_date) :: rest =>
      if date_leb term_start_date current_date
         && date_leb current_date term_end_date
      then true
      else in_term_windows current_date rest
  end.

Fixpoint school_term_scan (data : list (string * list (date * date)))
  (d : date) (state : string) : outcome bool :=
  match data with
  | [] => Ret false
  | (info_state, info_dates) :: rest =>
      if String.eqb info_state state
      then current_date <- datetime d ;;
           if in_term_windows current_date info_dates
           then Ret true
           else school_term_scan rest d state
      else school_term_scan rest d state
  end.

Definition is_date_in_school_term (d : date) (state : string) : outcome bool :=
  school_term_scan (termdates env) d state.

(** [get_date_data]: [-1] when the registry does not answer, else the list
    of the jurisdictions that have [d] as a public holiday. *)
Inductive date_data : Type :=
| MinusOne
| States (states_with_public_holiday : list string).

Definition get_date_data (d : date) : date_data :=
  match public_holiday_api env d with
  | None => MinusOne
  | Some data =>
      States (map h_Jurisdiction
                (filter (fun obj => date_eqb (h_Date obj) d) data))
  end.

(** [state in states_list]: an [int] on the right raises [TypeError]. *)
Definition py_in (state : string) (states_list : date_data) : outcome bool :=
  match states_list with
  | MinusOne => Raise TypeError
  | States l => Ret (existsb (String.eqb state) l)
  end.

(** The postcode ranges at the head of [get_date_surcharge]; [None] is the
    raised and caught [InvalidInputException]. *)
Definition state_of_post_code (code : Z) : option string :=
  (if (2000 <=? code) && (code <=? 2599) || (2619 <=? code) && (code <=? 2899)
      || (2921 <=? code) && (code <=? 2999) then Some "nsw"
   else if (2600 <=? code) && (code <=? 2618)
           || (2900 <=? code) && (code <=? 2920) then Some "act"
   else if (3000 <=? code) && (code <=? 3999) then Some "vic"
   else if (4000 <=? code) && (code <=? 4999) then Some "qld"
   else if (5000 <=? code) && (code <=? 5799) then Some "sa"
   else if (6000 <=? code) && (code <=? 6797) then Some "wa"
   else if (7000 <=? code) && (code <=? 7799) then Some "tas"
   else if (800 <=? code) && (code <=? 899) then Some "nt"
   else None)%Z%string.

(** [get_date_surcharge] *)
Definition get_date_surcharge (d : date) (code : Z) : outcome Q :=
  match state_of_post_code code with
  | None => Ret (-1)
  | Some state =>
      in_term <- is_date_in_school_term d state ;;
      if negb in_term then Ret 1.1
      else
        is_weekday <- is_date_weekday d ;;
        if is_weekday then Ret 1.1
        else
          holiday_here <- py_in state (get_date_data d) ;;
          if holiday_here then Ret 1.1 else Ret 1
  end.

(** *** The billing simulation *)

(** The variables of the loop of [cost_calculation]. *)
Record billing : Type := mkbilling {
  b_count : Z;
  b_final_cost : Q;
  b_current_minute : Z;
  b_date : date;
  b_surcharge_factor : Q;
  b_cost : Q;
  b_cost_val : Q
}.

(** [base_price / (time_required + 1) / 100] *)
Definition cost_per_minute (base_price : Q) (time_required : Z) : outcome Q :=
  c <- py_div base_price (inject_Z (time_required + 1)) ;;
  Ret (c / 100).

(** The head of the loop body: at minute 1440 the date advances, the minute
    restarts at 1 and the surcharge of the new date is looked up. *)
Definition billing_rollover (post_code : Z) (s : billing) : outcome billing :=
  if (b_current_minute s =? 1440)%Z
  then
    d <- get_next_date (b_date s) ;;
    surcharge_factor <- get_date_surcharge d post_code ;;
    Ret (mkbilling (b_count s) (b_final_cost s) 1 d surcharge_factor
           (b_cost s) (b_cost_val s))
  else Ret s.

(** [cost_val] as the price of the minute uses it, after the peak test. *)
Definition effective_cost_val (s : billing) : Q :=
  if negb (is_peak (b_current_minute s)) then b_cost s / 2 else b_cost_val s.

(** One iteration of [while count <= time_required]. *)
Definition cost_body (initial_state final_state capacity : Z)
  (base_price : Q) (time_required post_code : Z) (s : billing)
  : outcome billing :=
  s1 <- billing_rollover post_code s ;;
  let is_current_minute_peak := is_peak (b_current_minute s1) in
  let cost_val := effective_cost_val s1 in
  let price :=
    (inject_Z (final_state - initial_state) / 100) * inject_Z capacity
    * cost_val * b_surcharge_factor s1 in
  let final_cost := b_final_cost s1 + price in
  let current_minute := (b_current_minute s1 + 1)%Z in
  let count := (b_count s1 + 1)%Z in
  if is_peak current_minute && negb is_current_minute_peak
  then
    cost <- cost_per_minute base_price time_required ;;
    Ret (mkbilling count final_cost current_minute (b_date s1)
           (b_surcharge_factor s1) cost cost)
  else if negb (is_peak current_minute) && is_current_minute_peak
  then
    cost <- cost_per_minute base_price time_required ;;
    Ret (mkbilling count final_cost current_minute (b_date s1)
           (b_surcharge_factor s1) cost (cost / 2))
  else
    Ret (mkbilling count final_cost current_minute (b_date s1)
           (b_surcharge_factor s1) (b_cost s1) cost_val).

(** The loop; [count] grows by one per iteration, so [time_required + 1]
    units of fuel from [count = 0] reach the exit test. *)
Fixpoint cost_loop (initial_state final_state capacity : Z)
  (base_price : Q) (time_required post_code : Z) (fuel : nat) (s : billing)
  : outcome billing :=
  match fuel with
  | O => Ret s
  | S fuel' =>
      if (b_count s <=? time_required)%Z
      then
        s' <- cost_body initial_state final_state capacity base_price
                time_required post_code s ;;
        cost_loop initial_state final_state capacity base_price
          time_required post_code fuel' s'
      else Ret s
  end.

(** The state on entry of the loop. *)
Definition billing_start (cost : Q) (start_time : clock) (start_date : date)
  (surcharge_factor : Q) : billing :=
  mkbilling 0 0 (get_minute_from_start_time start_time) start_date
    surcharge_factor cost cost.

(** [cost_calculation] *)
Definition cost_calculation (initial_state final_state capacity : Z)
  (power cost : Q) (start_time : clock) (start_date : date) (post_code : Z)
  : outcome Q :=
  time <- time_calculation (inject_Z initial_state) (inject_Z final_state)
            (inject_Z capacity) power ;;
  let time_required := py_int time in
  let base_price := cost in
  cost <- cost_per_minute base_price time_required ;;
  surcharge_factor <- get_date_surcharge start_date post_code ;;
  if Qeq_bool surcharge_factor (-1) then Ret (-1)
  else
    s <- cost_loop initial_state final_state capacity base_price
           time_required post_code (Z.to_nat (time_required + 1))
           (billing_start cost start_time start_date surcharge_factor) ;;
    Ret (py_round (b_final_cost s) 2).

(** *** Reference dates for a start date that has no weather history *)

(** [get_reference_date] *)
Definition get_reference_date (d : date) : outcome date :=
  let reference_year := 2021%Z in
  date_time_val <- datetime d ;;
  yesterday <- sub_one_day (now env) ;;
  if date_leb yesterday date_time_val && (year d =? 2021)%Z
  then replace_year date_time_val 2020
  else
    let year_difference := (year d - reference_year)%Z in
    try_ValueError
      (reference_date <-
         replace_year date_time_val (year date_time_val - year_difference) ;;
       if date_leb yesterday reference_date
       then replace_year date_time_val 2020
       else Ret reference_date)
      (datetime (mkdate 28 2 (year date_time_val - year_difference))).

(** [get_preceding_dates_for_average] *)
Definition get_preceding_dates_for_average (d : date) : list date :=
  [d; mkdate (day d) (month d) (year d - 1);
      mkdate (day d) (month d) (year d - 2)].

(** *** Location and weather *)

Definition upper_ascii (c : ascii) : ascii :=
  let n := nat_of_ascii c in
  if (97 <=? n)%nat && (n <=? 122)%nat then ascii_of_nat (n - 32) else c.

Fixpoint upper (s : string) : string :=
  match s with
  | EmptyString => EmptyString
  | String c rest => String (upper_ascii c) (upper rest)
  end.

Fixpoint find_location (data : list (string * string)) (name : string)
  : option string :=
  match data with
  | [] => None
  | (d_name, d_id) :: rest =>
      if String.eqb d_name name then Some d_id else find_location rest name
  end.

(** [get_location_id]: [None] is the returned [-1]. *)
Definition get_location_id (post_code : Z) (suburb : string) : option string :=
  match location_api env post_code with
  | None => None
  | Some data => find_location data (upper suburb)
  end.

(** [get_date_solar_data]: [None] is the returned [-1]. *)
Definition get_date_solar_data (location_id : string) (start_date : date)
  : option solar :=
  weather_api env location_id start_date.

Definition seconds_of (t : clock) : Z := (hh t * 3600 + mm t * 60 + ss t)%Z.

(** [get_date_daylight_hours]: the minutes between sunrise and sunset, read
    back from the text of the [timedelta]; a negative difference prints as
    "-1 day, ..." and [int] rejects it. *)
Definition get_date_daylight_hours (d : date) (sunrise sunset : clock)
  : outcome Z :=
  _ <- datetime d ;;
  if valid_clock sunrise && valid_clock sunset
  then
    let delta := (seconds_of sunset - seconds_of sunrise)%Z in
    if (delta <? 0)%Z then Raise ValueError
    else Ret ((delta / 3600) * 60 + (delta mod 3600) / 60)%Z
  else Raise ValueError.

(** [hourlyWeather.sort(key=lambda x: x["hour"])]: a stable sort. *)
Fixpoint insert_by_hour (x : hourly) (l : list hourly) : list hourly :=
  match l with
  | [] => [x]
  | y :: rest =>
      if (w_hour x <=? w_hour y)%Z then x :: y :: rest
      else y :: insert_by_hour x rest
  end.

Fixpoint sort_by_hour (l : list hourly) : list hourly :=
  match l with
  | [] => []
  | x :: rest => insert_by_hour x (sort_by_hour rest)
  end.

(** *** The solar-savings simulation *)

(** The values that depend on the calendar day. *)
Record daylight : Type := mkdaylight {
  dy_date : date;
  dy_sunrise_in_minutes : Z;
  dy_sunset_in_minutes : Z;
  dy_si : Q;
  dy_dl : Z;
  dy_cc : list Q
}.

(** "Setting values": what follows a successful [get_date_solar_data]. *)
Definition load_daylight (location_id : string) (d : date)
  : outcome (option daylight) :=
  match get_date_solar_data location_id d with
  | None => Ret None
  | Some solar_data =>
      dl <- get_date_daylight_hours d (s_sunrise solar_data)
              (s_sunset solar_data) ;;
      Ret (Some (mkdaylight d
                   (convert_time_to_minutes_passed (s_sunrise solar_data))
                   (convert_time_to_minutes_passed (s_sunset solar_data))
                   (s_sunHours solar_data) dl
                   (map w_cloudCoverPct
                      (sort_by_hour (s_hourlyWeatherHistory solar_data)))))
  end.

(** The variables of the loop of one date. *)
Record savings_state : Type := mksavings {
  v_charging_hours_spent_in_sunlight : Z;
  v_count : Z;
  v_savings : Q;
  v_daylight_minutes : Z;
  v_time : Z;
  v_current_minute : Z;
  v_date_surcharge : Q;
  v_day : daylight
}.

(** The head of the loop body at minute 1440; [None] is [return -1]. *)
Definition savings_rollover (post_code : Z) (location_id : string)
  (s : savings_state) : outcome (option savings_state) :=
  if (v_current_minute s =? 1440)%Z
  then
    d <- get_next_date (dy_date (v_day s)) ;;
    date_surcharge <- get_date_surcharge d post_code ;;
    loaded <- load_daylight location_id d ;;
    match loaded with
    | None => Ret None
    | Some dy =>
        Ret (Some (mksavings (v_charging_hours_spent_in_sunlight s)
                     (v_count s) (v_savings s) (v_daylight_minutes s)
                     (dy_sunrise_in_minutes dy) 1 date_surcharge dy))
    end
  else Ret (Some s).

Definition in_daylight (s : savings_state) : bool :=
  ((dy_sunrise_in_minutes (v_day s) <=? v_current_minute s)
   && (v_current_minute s <=? dy_sunset_in_minutes (v_day s)))%Z.

(** The test that closes an accounting window. *)
Definition closes_window (time_required : Z) (s : savings_state) : bool :=
  (in_daylight s && ((v_current_minute s + 1) mod 60 =? 0)
   || (v_current_minute s =? dy_sunset_in_minutes (v_day s))
   || ((v_count s =? time_required - 1) && in_daylight s))%Z.

(** [math.floor((charging_hours_spent_in_sunlight*60 + time)/1440 * 24)] *)
Definition hour_index (charging_hours_spent_in_sunlight time : Z) : Z :=
  Qfloor (inject_Z (charging_hours_spent_in_sunlight * 60 + time) / 1440 * 24).

(** The body of the window close-out. *)
Definition close_window (power cost : Q) (s : savings_state)
  (daylight_minutes : Z) : outcome savings_state :=
  let charging_hours_spent_in_sunlight :=
    (v_charging_hours_spent_in_sunlight s + 1)%Z in
  let dl_hours := inject_Z (dy_dl (v_day s)) / 60 in
  let hour := hour_index charging_hours_spent_in_sunlight (v_time s) in
  current_cc <- py_index (dy_cc (v_day s)) hour ;;
  let charging_mins_in_hour := inject_Z daylight_minutes / 60 in
  per_hour <- py_div (dy_si (v_day s) * charging_mins_in_hour) dl_hours ;;
  let energy_generated := per_hour * (1 - current_cc / 100) * 50 * 0.2 in
  let current_cost :=
    if is_peak (v_current_minute s) then cost / 100 else cost / (100 * 2) in
  let savings :=
    v_savings s
    + (power * charging_mins_in_hour - energy_generated) * current_cost
      * v_date_surcharge s in
  Ret (mksavings charging_hours_spent_in_sunlight (v_count s) savings 0
         (v_time s) (v_current_minute s) (v_date_surcharge s) (v_day s)).

(** One iteration of [while count < time_required]. *)
Definition savings_body (power cost : Q) (time_required post_code : Z)
  (location_id : string) (s : savings_state)
  : outcome (option savings_state) :=
  rolled <- savings_rollover post_code location_id s ;;
  match rolled with
  | None => Ret None
  | Some s1 =>
      let daylight_minutes :=
        if in_daylight s1 then (v_daylight_minutes s1 + 1)%Z
        else v_daylight_minutes s1 in
      s2 <- (if closes_window time_required s1
             then close_window power cost s1 daylight_minutes
             else Ret (mksavings (v_charging_hours_spent_in_sunlight s1)
                         (v_count s1) (v_savings s1) daylight_minutes
                         (v_time s1) (v_current_minute s1)
                         (v_date_surcharge s1) (v_day s1))) ;;
      Ret (Some (mksavings (v_charging_hours_spent_in_sunlight s2)
                   (v_count s2 + 1) (v_savings s2) (v_daylight_minutes s2)
                   (v_time s2) (v_current_minute s2 + 1)
                   (v_date_surcharge s2) (v_day s2)))
  end.

Fixpoint savings_loop (power cost : Q) (time_required post_code : Z)
  (location_id : string) (fuel : nat) (s : savings_state)
  : outcome (option savings_state) :=
  match fuel with
  | O => Ret (Some s)
  | S fuel' =>
      if (v_count s <? time_required)%Z
      then
        r <- savings_body power cost time_required post_code location_id s ;;
        match r with
        | None => Ret None
        | Some s' =>
            savings_loop power cost time_required post_code location_id
              fuel' s'
        end
      else Ret (Some s)
  end.

(** The body of [for date in dates]: the simulation of one date.  [None]
    is [return -1] out of the whole method, [Some savings] the value that
    is appended to [savings_from_solar_energy_generated]. *)
Definition simulate_date (initial_state final_state capacity : Z)
  (power cost : Q) (start_time : clock) (post_code : Z)
  (location_id : string) (d : date) : outcome (option Q) :=
  time_float <- time_calculation (inject_Z initial_state)
                  (inject_Z final_state) (inject_Z capacity) power ;;
  let time_required := py_int time_float in
  let time := get_minute_from_start_time start_time in
  date_surcharge <- get_date_surcharge d post_code ;;
  loaded <- load_daylight location_id d ;;
  match loaded with
  | None => Ret None
  | Some dy =>
      r <- savings_loop power cost time_required post_code location_id
             (Z.to_nat time_required)
             (mksavings 0 0 0 0 time time date_surcharge dy) ;;
      match r with
      | None => Ret None
      | Some s => Ret (Some (v_savings s))
      end
  end.

Fixpoint simulate_dates (initial_state final_state capacity : Z)
  (power cost : Q) (start_time : clock) (post_code : Z)
  (location_id : string) (dates : list date) (acc : list Q)
  : outcome (option (list Q)) :=
  match dates with
  | [] => Ret (Some acc)
  | d :: rest =>
      r <- simulate_date initial_state final_state capacity power cost
             start_time post_code location_id d ;;
      match r with
      | None => Ret None
      | Some savings =>
          simulate_dates initial_state final_state capacity power cost
            start_time post_code location_id rest (acc ++ [savings])
      end
  end.

(** The choice of the dates to simulate. *)
Definition dates_to_simulate (start_date : date) : outcome (list date) :=
  dt_check <- datetime start_date ;;
  yesterday <- sub_one_day (now env) ;;
  if date_ltb dt_check yesterday
  then Ret [start_date]
  else
    reference <- get_reference_date start_date ;;
    Ret (get_preceding_dates_for_average reference).

(** [sum(l)] *)
Definition py_sum (l : list Q) : Q := fold_left Qplus l 0.

(** [calculate_solar_energy_savings_from_any_date] *)
Definition calculate_solar_energy_savings_from_any_date
  (initial_state final_state capacity : Z) (power cost : Q)
  (start_time : clock) (start_date : date) (post_code : Z) (suburb : string)
  : outcome Q :=
  match get_location_id post_code suburb with
  | None => Ret (-1)
  | Some location_id =>
      dates <- dates_to_simulate start_date ;;
      r <- simulate_dates initial_state final_state capacity power cost
             start_time post_code location_id dates [] ;;
      match r with
      | None => Ret (-1)
      | Some savings_from_solar_energy_generated =>
          py_div (py_sum savings_from_solar_energy_generated)
            (inject_Z (Z.of_nat
                         (List.length savings_from_solar_energy_generated)))
      end
  end.

(** *** The facade *)

(** What [get_charging_cost] returns: the integer [-1], the message
    "$0.00 as energy received from solar panels was greater than energy
    consumed!", or ["$" + str(amount)]. *)
Inductive charging_cost : Type :=
| Unavailable
| FullyOffset
| Dollars (amount : Q).

(** [get_charging_cost] *)
Definition get_charging_cost (initial_state final_state capacity : Z)
  (charger_configuration : Z) (start_time : clock) (start_date : date)
  (post_code : Z) (suburb : string) : outcome charging_cost :=
  let '(power, cost) := get_power charger_configuration in
  total_cost <- cost_calculation initial_state final_state capacity power
                  cost start_time start_date post_code ;;
  money_saved <- calculate_solar_energy_savings_from_any_date initial_state
                   final_state capacity power cost start_time start_date
                   post_code suburb ;;
  if Qeq_bool money_saved (-1) then Ret Unavailable
  else
    let final_cost := total_cost - money_saved in
    if Qle_bool total_cost money_saved then Ret FullyOffset
    else if negb (Qle_bool final_cost 1) then Ret (Dollars (py_round final_cost 2))
    else Ret (Dollars (py_round final_cost 4)).

End Calculator.

(** The duration as the specification writes it:
    [round(((final-initial)/100) * capacity_kWh / power_kW * 60, 2)]. *)
Definition charging_minutes (initial final capacity_kWh power_kW : Q) : Q :=
  py_round (((final - initial) / 100) * capacity_kWh / power_kW * 60)%Q 2.

(** The registry answers for [d] and lists jurisdiction [state] on it. *)
Definition holiday_listed (env : Env) (d : date) (state : string) : Prop :=
  exists data, public_holiday_api env d = Some data
    /\ exists obj, In obj data /\ h_Date obj = d /\ h_Jurisdiction obj = state.

(** The registry answers for [d] and no record lists [state] on it. *)
Definition holiday_free (env : Env) (d : date) (state : string) : Prop :=
  exists data, public_holiday_api env d = Some data
    /\ forall obj, In obj data -> h_Date obj = d -> h_Jurisdiction obj <> state.

(** The states in which control stands at the head of the billing loop of
    [cost_calculation]: the entry state, and every state one iteration
    after a head state that passes the loop test. *)
Inductive billing_head (env : Env) (initial_state final_state capacity : Z)
  (base_price : Q) (time_required post_code : Z) (entry : billing)
  : billing -> Prop :=
| head_entry :
    billing_head env initial_state final_state capacity base_price
      time_required post_code entry entry
| head_step (s s' : billing) :
    billing_head env initial_state final_state capacity base_price
      time_required post_code entry s ->
    (b_count s <= time_required)%Z ->
    cost_body env initial_state final_state capacity base_price
      time_required post_code s = Ret s' ->
    billing_head env initial_state final_state capacity base_price
      time_required post_code entry s'.

(** What holds at the head of every iteration of the billing loop: [cost]
    is the per-minute price, [cost_val] is that price too whenever the
    minute is a peak minute, and the minute has not passed 1440. *)
Definition billing_inv (per_minute : Q) (s : billing) : Prop :=
  b_cost s = per_minute
  /\ (is_peak (b_current_minute s) = true -> b_cost_val s = per_minute)
  /\ (0 <= b_current_minute s <= 1440)%Z.

(** The day of the month after the leap-day fallback: 29 February counts
    as 28 February. *)
Definition fallback_day (d : date) : Z :=
  if (month d =? 2)%Z && (day d =? 29)%Z then 28%Z else day d.

(** [r] is the most recent date strictly before [bound] that has the day
    and month of [d] (after the leap-day fallback): [r] is before [bound]
    and the same day one year later is not. *)
Definition latest_same_day_before (bound d r : date) : Prop :=
  day r = fallback_day d /\ month r = month d
  /\ date_ltb r bound = true
  /\ date_ltb (mkdate (day r) (month r) (year r + 1)) bound = false.

(** * The savings method without cloud cover *)









(** * The duration text *)





(** * The form validators (src/app/calculator_form.py)

    A validator passes or raises.  [int] and [isdigit] are Python's
    built-ins on the text of a field; [int] answers [None] where Python
    raises [ValueError]. *)

Module Form.

Inductive form_exn : Type :=
| ValidationError
| AttributeError
| Uncaught (e : exn).

Inductive verdict : Type :=
| Passed
| Failed (e : form_exn).

(** The body of the location provider's answer once parsed: a JSON object,
    of which only the keys matter, or a JSON array of locations, each with
    its "name" and "id". *)
Inductive location_json : Type :=
| JObject (keys : list string)
| JArray (items : list (string * string)).

Section Validators.

Variable int : string -> option Z.
Variable isdigit : string -> bool.

(** [validate_BatteryPackCapacity] *)
Definition validate_BatteryPackCapacity (data : option string) : verdict :=
  match data with
  | None => Failed ValidationError
  | Some text =>
      match int text with
      | None => Failed (Uncaught ValueError)
      | Some n => if (n <=? 0)%Z then Failed (Uncaught ValueError) else Passed
      end
  end.

(** [validate_InitialCharge] *)
Definition validate_InitialCharge (data : option string) : verdict :=
  match data with
  | None => Failed ValidationError
  | Some text =>
      match int text with
      | None => Failed (Uncaught ValueError)
      | Some n =>
          if (n <? 0)%Z then Failed (Uncaught ValueError)
          else if (100 <=? n)%Z then Failed (Uncaught ValueError)
          else Passed
      end
  end.

(** [validate_FinalCharge]; [initial] is [self.InitialCharge.data]. *)
Definition validate_FinalCharge (initial data : option string) : verdict :=
  match data with
  | None => Failed ValidationError
  | Some text =>
      match int text with
      | None => Failed (Uncaught ValueError)
      | Some n =>
          if (n <=? 0)%Z then Failed (Uncaught ValueError)
          else if (100 <? n)%Z then Failed (Uncaught ValueError)
          else
            match initial with
            | None => Failed AttributeError
            | Some initial_text =>
                if isdigit initial_text
                then
                  match int initial_text with
                  | None => Failed (Uncaught ValueError)
                  | Some i =>
                      if (n <=? i)%Z then Failed (Uncaught ValueError)
                      else Passed
                  end
                else Passed
            end
      end
  end.

(** [validate_StartDate]; the field holds a [datetime.date]. *)
Definition validate_StartDate (data : option date) : verdict :=
  match data with
  | None => Failed ValidationError
  | Some d =>
      if (year d =? 2008)%Z && (month d <? 7)%Z
      then Failed (Uncaught ValueError)
      else if (year d <? 2008)%Z then Failed (Uncaught ValueError)
      else if (2999 <? year d)%Z then Failed (Uncaught ValueError)
      else match datetime d with
           | Ret _ => Passed
           | Raise e => Failed (Uncaught e)
           end
  end.

(** [validate_ChargerConfiguration] *)
Definition validate_ChargerConfiguration (data : option string) : verdict :=
  match data with
  | None => Failed ValidationError
  | Some text =>
      match int text with
      | None => Failed (Uncaught ValueError)
      | Some int_charger_config =>
          if (8 <? int_charger_config)%Z then Failed (Uncaught ValueError)
          else if (int_charger_config <? 1)%Z
          then Failed (Uncaught ValueError)
          else Passed
      end
  end.

(** [validate_PostCode] *)
Definition validate_PostCode (data : option string) : verdict :=
  match data with
  | None => Failed ValidationError
  | Some text =>
      match int text with
      | None => Failed (Uncaught ValueError)
      | Some int_postcode =>
          if ((int_postcode <? 800)
              || (899 <? int_postcode) && (int_postcode <? 2000)
              || (2920 <? int_postcode) && (int_postcode <? 3000)
              || (5799 <? int_postcode) && (int_postcode <? 6000)
              || (6797 <? int_postcode) && (int_postcode <? 7000)
              || (7799 <? int_postcode))%Z
          then Failed (Uncaught ValueError)
          else Passed
      end
  end.

(** The loop of [validate_Suburb] over the locations. *)
Fixpoint every_name_is (items : list (string * string)) (name : string)
  : verdict :=
  match items with
  | [] => Passed
  | (d_name, _) :: rest =>
      if negb (String.eqb d_name name) then Failed (Uncaught ValueError)
      else every_name_is rest name
  end.

(** [validate_Suburb]; [response] is the parsed body of the answer to the
    request for [self.PostCode.data].  The field holds text, so
    [field.data != str(field.data)] is false. *)
Definition validate_Suburb (data : option string) (response : location_json)
  : verdict :=
  match data with
  | None => Failed ValidationError
  | Some text =>
      match response with
      | JObject [] => Failed (Uncaught IndexError)
      | JObject (key :: keys) =>
          if negb (String.eqb key "statusCode")
          then Failed (Uncaught TypeError)
          else Passed
      | JArray [] => Failed (Uncaught IndexError)
      | JArray items => every_name_is items (upper text)
      end
  end.

End Validators.

End Form.

(** * Sample data

    A small world to run the calculator in: the four 2021 school terms of
    two states, three registry records, three postcodes the location
    provider knows, and one winter day of weather with 24 hourly entries. *)

Module Sample.

Definition terms_2021 : list (date * date) :=
  [ (mkdate 27 1 2021, mkdate 1 4 2021);
    (mkdate 19 4 2021, mkdate 25 6 2021);
    (mkdate 12 7 2021, mkdate 17 9 2021);
    (mkdate 5 10 2021, mkdate 17 12 2021) ].

Definition termdates : list (string * list (date * date)) :=
  [ ("nsw"%string, terms_2021); ("vic"%string, terms_2021) ].

Definition registry : list holiday :=
  [ mkholiday (mkdate 26 1 2021) "nsw";
    mkholiday (mkdate 25 4 2021) "nsw";
    mkholiday (mkdate 25 4 2021) "vic" ].

Definition locations (post_code : Z) : option (list (string * string)) :=
  if post_code =? 2000 then Some [("SYDNEY"%string, "loc-2000"%string)]
  else if post_code =? 3000 then Some [("MELBOURNE"%string, "loc-3000"%string)]
  else if post_code =? 6798
  then Some [("CHRISTMAS ISLAND"%string, "loc-6798"%string)]
  else None.

Definition winter_day : solar :=
  mksolar (mkclock 7 20 0) (mkclock 17 10 0) 5.2
    (map (fun h => mkhourly (Z.of_nat h) 25) (seq 0 24)).

(** The world on day [today], with the holiday registry up or down. *)
Definition world (today : date) (registry_up : bool) : Env :=
  mkEnv today termdates
    (fun _ => if registry_up then Some registry else None)
    locations
    (fun _ _ => Some winter_day).

End Sample.

(** A summer day, for sessions that cross the end of the peak window in
    daylight. *)

Module Summer.

Definition day : solar :=
  mksolar (mkclock 5 30 0) (mkclock 20 30 0) 9
    (map (fun h => mkhourly (Z.of_nat h) 10) (seq 0 24)).

Definition world (today : date) : Env :=
  mkEnv today Sample.termdates (fun _ => Some Sample.registry)
    Sample.locations (fun _ _ => Some day).

End Summer.

(** Text fields for the examples of the form: [isdigit] on ASCII text, and
    [int] on an optional sign followed by ASCII digits, the part of
    Python's [int] the examples need. *)

Module SampleText.

Definition is_digit (c : ascii) : bool :=
  let n := nat_of_ascii c in (48 <=? n)%nat && (n <=? 57)%nat.

Fixpoint all_digits (s : string) : bool :=
  match s with
  | EmptyString => true
  | String c rest => is_digit c && all_digits rest
  end.

Definition isdigit (s : string) : bool :=
  match s with
  | EmptyString => false
  | _ => all_digits s
  end.

Fixpoint digits_value (acc : Z) (s : string) : Z :=
  match s with
  | EmptyString => acc
  | String c rest =>
      digits_value (acc * 10 + Z.of_nat (nat_of_ascii c - 48)) rest
  end.

Definition int (s : string) : option Z :=
  match s with
  | String "+" rest =>
      if isdigit rest then Some (digits_value 0 rest) else None
  | String "-" rest =>
      if isdigit rest then Some (- digits_value 0 rest)%Z else None
  | _ => if isdigit s then Some (digits_value 0 s) else None
  end.

End SampleText.

(** * Properties *)

Local Open Scope Q_scope.

(** ** Rounding *)

Lemma round_half_even_bounds (x : Q) :
  (Qfloor x <= round_half_even x <= Qfloor x + 1)%Z.
Proof.
  unfold round_half_even.
  destruct (Qcompare _ _); [destruct (Z.even _)| |]; lia.
Qed.

Lemma round_half_even_mono (x y : Q) :
  x <= y -> (round_half_even x <= round_half_even y)%Z.
Proof.
  intros Hxy.
  pose proof (Qfloor_resp_le _ _ Hxy) as Hf.
  destruct (Z.eq_dec (Qfloor x) (Qfloor y)) as [E|N].
  - unfold round_half_even. rewrite <- E.
    destruct (Qcompare_spec (x - inject_Z (Qfloor x)) (1 # 2)) as [Hx|Hx|Hx];
    destruct (Qcompare_spec (y - inject_Z (Qfloor x)) (1 # 2)) as [Hy|Hy|Hy];
    try destruct (Z.even (Qfloor x)); try lia; exfalso; lra.
  - pose proof (round_half_even_bounds x).
    pose proof (round_half_even_bounds y). lia.
Qed.

Lemma round_half_even_comp (x y : Q) :
  x == y -> round_half_even x = round_half_even y.
Proof.
  intros E. unfold round_half_even. rewrite (Qfloor_comp x y E).
  assert (C : (x - inject_Z (Qfloor y) ?= 1 # 2)
              = (y - inject_Z (Qfloor y) ?= 1 # 2)).
  { apply Qcompare_comp; [rewrite E|]; reflexivity. }
  now rewrite C.
Qed.

Lemma scale_pos (n : positive) : 0 < inject_Z (Z.pow_pos 10 n).
Proof.
  change 0 with (inject_Z 0). rewrite <- Zlt_Qlt.
  rewrite Z.pow_pos_fold. apply Z.pow_pos_nonneg; lia.
Qed.

Lemma py_round_mono (x y : Q) (n : positive) :
  x <= y -> py_round x n <= py_round y n.
Proof.
  intros Hxy. unfold py_round.
  pose proof (scale_pos n) as Hs.
  apply Qmult_le_compat_r.
  - rewrite <- Zle_Qle. apply round_half_even_mono.
    apply Qmult_le_compat_r; lra.
  - apply Qinv_le_0_compat. lra.
Qed.

Lemma py_round_nonneg (x : Q) (n : positive) : 0 <= x -> 0 <= py_round x n.
Proof.
  intros Hx.
  assert (E : py_round 0 n == 0).
  { unfold py_round.
    rewrite (round_half_even_comp _ 0) by ring.
    unfold Qdiv. change (round_half_even 0) with 0%Z. ring. }
  rewrite <- E. now apply py_round_mono.
Qed.

(** ** Duration *)

Lemma minutes_formula_mono (a a' cap cap' p p' : Q) :
  0 <= a <= a' -> 0 <= cap <= cap' -> 0 < p' <= p ->
  a / 100 * cap / p * 60 <= a' / 100 * cap' / p' * 60.
Proof.
  intros Ha Hc Hp.
  assert (Hip : 0 < / p) by (apply Qinv_lt_0_compat; lra).
  assert (Hipp : / p <= / p').
  { destruct (Qlt_le_dec p' p) as [L|G].
    - apply Qlt_le_weak.
      assert (H0 : 0 < p) by lra.
      exact (proj1 (Qinv_lt_contravar p' p (proj1 Hp) H0) L).
    - assert (E : p == p') by lra. rewrite E. apply Qle_refl. }
  unfold Qdiv.
  set (ip := / p) in *. set (ip' := / p') in *.
  assert (H1 : a * cap <= a' * cap') by (apply Qmult_le_compat_nonneg; lra).
  assert (H0 : 0 <= a * cap) by (apply Qmult_le_0_compat; lra).
  assert (H2 : a * cap * ip <= a' * cap' * ip')
    by (apply Qmult_le_compat_nonneg; lra).
  setoid_replace (a * / 100 * cap * ip * 60) with (a * cap * ip * (3 # 5))
    by field.
  setoid_replace (a' * / 100 * cap' * ip' * 60) with (a' * cap' * ip' * (3 # 5))
    by field.
  lra.
Qed.



(** ** Dates *)

Lemma datetime_valid (d : date) : valid_date d = true -> datetime d = Ret d.
Proof. intros H. unfold datetime. now rewrite H. Qed.

Lemma date_eqb_eq (a b : date) : date_eqb a b = true <-> a = b.
Proof.
  destruct a as [da ma ya], b as [db mb yb]. unfold date_eqb. simpl.
  rewrite !andb_true_iff, !Z.eqb_eq. split.
  - intros [[-> ->] ->]. reflexivity.
  - intros E. inversion E. auto.
Qed.

(** ** Surcharge *)

Lemma school_term_scan_total data (d : date) (state : string) :
  valid_date d = true -> exists b, school_term_scan data d state = Ret b.
Proof.
  intros Hv. induction data as [|[info_state info_dates] rest IH]; simpl.
  - now exists false.
  - destruct (String.eqb info_state state); [|exact IH].
    rewrite (datetime_valid d Hv). simpl.
    destruct (in_term_windows d info_dates); [now exists true|exact IH].
Qed.

Lemma listed_iff (data : list holiday) (d : date) (state : string) :
  existsb (String.eqb state)
    (map h_Jurisdiction (filter (fun obj => date_eqb (h_Date obj) d) data))
  = true
  <-> exists obj, In obj data /\ h_Date obj = d /\ h_Jurisdiction obj = state.
Proof.
  rewrite existsb_exists. split.
  - intros [j [Hin Hj]]. apply in_map_iff in Hin as [obj [<- Hf]].
    apply filter_In in Hf as [Hd He]. apply date_eqb_eq in He.
    apply String.eqb_eq in Hj. now exists obj.
  - intros [obj [Hin [Hd Hs]]]. exists (h_Jurisdiction obj). split.
    + apply in_map. apply filter_In. split; [exact Hin|].
      now apply date_eqb_eq.
    + now apply String.eqb_eq.
Qed.

(** The three tests of [get_date_surcharge] once the state is known. *)
Lemma get_date_surcharge_tests (env : Env) (d : date) (code : Z)
  (state : string) (in_term : bool) :
  valid_date d = true ->
  state_of_post_code code = Some state ->
  is_date_in_school_term env d state = Ret in_term ->
  get_date_surcharge env d code =
    if negb in_term then Ret 1.1
    else if (weekday d <? 5)%Z then Ret 1.1
    else match public_holiday_api env d with
         | None => Raise TypeError
         | Some data =>
             if existsb (String.eqb state)
                  (map h_Jurisdiction
                     (filter (fun obj => date_eqb (h_Date obj) d) data))
             then Ret 1.1 else Ret 1
         end.
Proof.
  intros Hv Hs Ht. unfold get_date_surcharge. rewrite Hs, Ht. simpl.
  destruct in_term; simpl; [|reflexivity].
  unfold is_date_weekday. rewrite (datetime_valid d Hv). simpl.
  destruct (weekday d <? 5)%Z; [reflexivity|].
  unfold get_date_data. destruct (public_holiday_api env d); reflexivity.
Qed.

(** C1 (amended). For a date and a postcode that maps to a jurisdiction,
    [get_date_surcharge] returns 1.1 exactly when the date is a weekday
    (Monday to Friday), or lies outside the jurisdiction's school terms, or
    is listed by the registry as a public holiday of the jurisdiction; it
    returns 1 exactly for a Saturday or Sunday inside a term on which the
    registry answers without listing the jurisdiction. *)
Theorem get_date_surcharge_rule (env : Env) (d : date) (code : Z)
  (state : string) :
  valid_date d = true ->
  state_of_post_code code = Some state ->
  (get_date_surcharge env d code = Ret 1.1
   <-> (weekday d < 5)%Z
       \/ is_date_in_school_term env d state = Ret false
       \/ holiday_listed env d state)
  /\ (get_date_surcharge env d code = Ret 1
      <-> (5 <= weekday d)%Z
          /\ is_date_in_school_term env d state = Ret true
          /\ holiday_free env d state).
Proof.
  intros Hv Hs.
  destruct (school_term_scan_total (termdates env) d state Hv) as [b Hb].
  fold (is_date_in_school_term env d state) in Hb.
  rewrite (get_date_surcharge_tests env d code state b Hv Hs Hb), Hb.
  unfold holiday_listed, holiday_free.
  destruct b; simpl.
  - destruct (Z.ltb_spec (weekday d) 5) as [Hw|Hw].
    + split; split; try discriminate; auto.
      intros [Hge _]. lia.
    + destruct (public_holiday_api env d) as [data|] eqn:Hapi.
      * destruct (existsb _ _) eqn:Hex.
        -- apply listed_iff in Hex. split; split; try discriminate.
           ++ intros _. right. right. now exists data.
           ++ reflexivity.
           ++ intros [_ [_ [data' [E Hfree]]]]. inversion E; subst data'.
              destruct Hex as [obj [Hin [Hd Hj]]].
              exfalso. exact (Hfree obj Hin Hd Hj).
        -- assert (Hno : forall obj, In obj data -> h_Date obj = d ->
                           h_Jurisdiction obj <> state).
           { intros obj Hin Hd Hj.
             assert (T : existsb (String.eqb state)
                           (map h_Jurisdiction
                              (filter (fun obj => date_eqb (h_Date obj) d)
                                 data)) = true)
               by (apply listed_iff; now exists obj).
             congruence. }
           split; split; try discriminate.
           ++ intros [Hlt|[Hf|[data' [E [obj [Hin [Hd Hj]]]]]]];
                [lia|discriminate|].
              inversion E; subst data'. exfalso. exact (Hno obj Hin Hd Hj).
           ++ intros _. repeat split; [lia|]. now exists data.
           ++ reflexivity.
      * split; split; try discriminate.
        -- intros [Hlt|[Hf|[data' [E _]]]]; [lia|discriminate|discriminate].
        -- intros [_ [_ [data' [E _]]]]. discriminate.
  - split; split; try discriminate; auto.
    intros [_ [E _]]. discriminate.
Qed.

(** Anzac Day 2021, a Sunday inside term two, in New South Wales. *)
Lemma get_date_surcharge_rule_anzac :
  let env := Sample.world (mkdate 4 11 2026) true in
  get_date_surcharge env (mkdate 25 4 2021) 2000 = Ret 1.1
  <-> (weekday (mkdate 25 4 2021) < 5)%Z
      \/ is_date_in_school_term env (mkdate 25 4 2021) "nsw" = Ret false
      \/ holiday_listed env (mkdate 25 4 2021) "nsw".
Proof.
  exact (proj1 (get_date_surcharge_rule
                  (Sample.world (mkdate 4 11 2026) true)
                  (mkdate 25 4 2021) 2000 "nsw" eq_refl eq_refl)).
Defined.

(** Counterexample to C1 as stated: Monday 8 February 2021 is an ordinary
    weekday inside term one with no holiday, and the surcharge in Sydney
    is 1.1, not 1.0. *)
Lemma surcharge_on_weekday_in_term :
  let env := Sample.world (mkdate 4 11 2026) true in
  let d := mkdate 8 2 2021 in
  weekday d = 0%Z
  /\ is_date_in_school_term env d "nsw" = Ret true
  /\ get_date_data env d = States []
  /\ get_date_surcharge env d 2000 = Ret 1.1
  /\ get_date_surcharge env d 2000 <> Ret 1.
Proof.
  vm_compute. repeat split; discriminate.
Qed.

(** C8 (amended). For a postcode that maps to a jurisdiction, every Monday
    to Friday date gets 1.1 whatever the school terms say.  A Saturday or
    Sunday gets 1.1 when it lies outside the terms or the registry lists
    the jurisdiction on it, and 1 when it lies inside a term and the
    registry answers without listing the jurisdiction. *)
Theorem get_date_surcharge_by_day (env : Env) (d : date) (code : Z)
  (state : string) :
  valid_date d = true ->
  state_of_post_code code = Some state ->
  ((weekday d < 5)%Z -> get_date_surcharge env d code = Ret 1.1)
  /\ ((5 <= weekday d)%Z ->
      is_date_in_school_term env d state = Ret false ->
      get_date_surcharge env d code = Ret 1.1)
  /\ ((5 <= weekday d)%Z ->
      is_date_in_school_term env d state = Ret true ->
      holiday_listed env d state ->
      get_date_surcharge env d code = Ret 1.1)
  /\ ((5 <= weekday d)%Z ->
      is_date_in_school_term env d state = Ret true ->
      holiday_free env d state ->
      get_date_surcharge env d code = Ret 1).
Proof.
  intros Hv Hs.
  destruct (school_term_scan_total (termdates env) d state Hv) as [b Hb].
  fold (is_date_in_school_term env d state) in Hb.
  rewrite (get_date_surcharge_tests env d code state b Hv Hs Hb).
  repeat split.
  - intros Hw. apply Z.ltb_lt in Hw. rewrite Hw. now destruct b.
  - intros _ Hf. rewrite Hb in Hf. now inversion Hf.
  - intros Hw Ht [data [Hapi Hobj]]. rewrite Hb in Ht. inversion Ht; subst b.
    simpl. apply Z.ltb_ge in Hw. rewrite Hw, Hapi.
    apply listed_iff in Hobj. now rewrite Hobj.
  - intros Hw Ht [data [Hapi Hfree]]. rewrite Hb in Ht. inversion Ht; subst b.
    simpl. apply Z.ltb_ge in Hw. rewrite Hw, Hapi.
    destruct (existsb _ _) eqn:Hex; [|reflexivity].
    apply listed_iff in Hex as [obj [Hin [Hd Hj]]].
    exfalso. exact (Hfree obj Hin Hd Hj).
Qed.

(** Friday 5 February 2021, inside term one, in Melbourne. *)
Lemma get_date_surcharge_by_day_friday :
  (weekday (mkdate 5 2 2021) < 5)%Z
  /\ is_date_in_school_term (Sample.world (mkdate 4 11 2026) true)
       (mkdate 5 2 2021) "vic" = Ret true
  /\ get_date_surcharge (Sample.world (mkdate 4 11 2026) true)
       (mkdate 5 2 2021) 3000 = Ret 1.1.
Proof.
  split; [exact eq_refl|]. split; [reflexivity|].
  exact (proj1 (get_date_surcharge_by_day
                  (Sample.world (mkdate 4 11 2026) true)
                  (mkdate 5 2 2021) 3000 "vic" eq_refl eq_refl) eq_refl).
Defined.

(** Counterexample to C8 as stated: Saturday 6 February 2021 lies inside
    term one, the registry answers and lists nothing on it, and the
    surcharge in Sydney is 1, not 1.1. *)
Lemma surcharge_on_saturday_in_term :
  let env := Sample.world (mkdate 4 11 2026) true in
  let d := mkdate 6 2 2021 in
  weekday d = 5%Z
  /\ state_of_post_code 2000 = Some "nsw"%string
  /\ is_date_in_school_term env d "nsw" = Ret true
  /\ get_date_surcharge env d 2000 = Ret 1
  /\ get_date_surcharge env d 2000 <> Ret 1.1.
Proof.
  vm_compute. repeat split; discriminate.
Qed.

(** C3 (the code departs from the claim). With the registry down, the
    surcharge lookup for Saturday 6 February 2021 in Sydney reaches
    [state in states_list] with [states_list = -1]: [get_date_data] does
    hand back the signal value, and [get_date_surcharge] raises
    [TypeError] instead of passing it on. *)
Theorem registry_failure_raises :
  let env := Sample.world (mkdate 4 11 2026) false in
  let d := mkdate 6 2 2021 in
  state_of_post_code 2000 = Some "nsw"%string
  /\ public_holiday_api env d = None
  /\ get_date_data env d = MinusOne
  /\ get_date_surcharge env d 2000 = Raise TypeError.
Proof.
  vm_compute. repeat split.
Qed.

(** Whenever the lookup is made and fails, the outcome is the exception:
    the registry is only consulted for a Saturday or Sunday inside term. *)
Lemma registry_failure_always_raises (env : Env) (d : date) (code : Z)
  (state : string) :
  valid_date d = true ->
  state_of_post_code code = Some state ->
  is_date_in_school_term env d state = Ret true ->
  (5 <= weekday d)%Z ->
  public_holiday_api env d = None ->
  get_date_surcharge env d code = Raise TypeError.
Proof.
  intros Hv Hs Ht Hw Hapi.
  rewrite (get_date_surcharge_tests env d code state true Hv Hs Ht).
  simpl. apply Z.ltb_ge in Hw. now rewrite Hw, Hapi.
Qed.

(** ** Choice of the dates to simulate *)

Ltac date_order :=
  unfold date_leb, date_ltb, date_eqb in *; cbn [day month year] in *;
  repeat match goal with
  | H : _ = true |- _ =>
      first [ rewrite orb_true_iff in H | rewrite andb_true_iff in H
            | rewrite Z.ltb_lt in H | rewrite Z.eqb_eq in H
            | rewrite Z.leb_le in H ]
  | H : _ = false |- _ =>
      first [ rewrite orb_false_iff in H | rewrite andb_false_iff in H
            | rewrite Z.ltb_ge in H | rewrite Z.eqb_neq in H
            | rewrite Z.leb_gt in H ]
  | |- _ = true =>
      first [ rewrite orb_true_iff | rewrite andb_true_iff
            | rewrite Z.ltb_lt | rewrite Z.eqb_eq | rewrite Z.leb_le ]
  | |- _ = false =>
      first [ rewrite orb_false_iff | rewrite andb_false_iff
            | rewrite Z.ltb_ge | rewrite Z.eqb_neq | rewrite Z.leb_gt ]
  end;
  try lia.

Lemma days_in_month_bounds (y m : Z) : (28 <= days_in_month y m <= 31)%Z.
Proof.
  unfold days_in_month.
  destruct (m =? 2)%Z; [destruct (is_leap y); lia|].
  destruct ((m =? 4) || (m =? 6) || (m =? 9) || (m =? 11))%Z; lia.
Qed.

Lemma days_in_month_2020 (y m : Z) :
  (days_in_month y m <= days_in_month 2020 m)%Z.
Proof.
  unfold days_in_month.
  destruct (m =? 2)%Z.
  - change (is_leap 2020) with true. destruct (is_leap y); lia.
  - destruct ((m =? 4) || (m =? 6) || (m =? 9) || (m =? 11))%Z; lia.
Qed.

Lemma valid_date_fields (d : date) :
  valid_date d = true ->
  (1 <= year d <= 9999 /\ 1 <= month d <= 12
   /\ 1 <= day d <= days_in_month (year d) (month d))%Z.
Proof.
  unfold valid_date. rewrite !andb_true_iff, !Z.leb_le. tauto.
Qed.

Lemma valid_date_intro (d : date) :
  (1 <= year d <= 9999)%Z -> (1 <= month d <= 12)%Z ->
  (1 <= day d <= days_in_month (year d) (month d))%Z ->
  valid_date d = true.
Proof.
  intros. unfold valid_date. rewrite !andb_true_iff, !Z.leb_le. tauto.
Qed.

(** Every day of every year exists in 2020. *)
Lemma valid_in_2020 (d : date) :
  valid_date d = true -> valid_date (mkdate (day d) (month d) 2020) = true.
Proof.
  intros Hv. apply valid_date_fields in Hv as [Hy [Hm Hd]].
  apply valid_date_intro; simpl; try lia.
  pose proof (days_in_month_2020 (year d) (month d)). lia.
Qed.

Lemma sub_one_day_before (d y : date) :
  valid_date d = true -> sub_one_day d = Ret y ->
  date_ltb y d = true /\ (year d - 1 <= year y <= year d)%Z.
Proof.
  intros Hv. apply valid_date_fields in Hv as [Hy [Hm Hd]].
  unfold sub_one_day.
  destruct (1 <? day d)%Z eqn:E1.
  { intros E. inversion E; subst y. split; date_order. }
  destruct (1 <? month d)%Z eqn:E2.
  { intros E. inversion E; subst y. split; date_order. }
  destruct (1 <? year d)%Z eqn:E3; [|discriminate].
  intros E. inversion E; subst y. split; date_order.
Qed.

(** [get_reference_date] returns for every existing start date. *)
Lemma get_reference_date_total (env : Env) (d y : date) :
  valid_date d = true -> sub_one_day (now env) = Ret y ->
  exists r, get_reference_date env d = Ret r.
Proof.
  intros Hv Hy. unfold get_reference_date.
  rewrite (datetime_valid d Hv), Hy. simpl.
  unfold replace_year.
  pose proof (valid_in_2020 d Hv) as H20.
  destruct (date_leb y d && (year d =? 2021)%Z).
  { rewrite (datetime_valid _ H20). eauto. }
  replace (year d - (year d - 2021))%Z with 2021%Z by lia.
  destruct (valid_date (mkdate (day d) (month d) 2021)) eqn:H21.
  - rewrite (datetime_valid _ H21). simpl.
    destruct (date_leb y _); [rewrite (datetime_valid _ H20)|];
      unfold try_ValueError; eauto.
  - unfold datetime at 1. rewrite H21. unfold bind, try_ValueError.
    change (datetime (mkdate 28 2 2021)) with (Ret (mkdate 28 2 2021)).
    eauto.
Qed.

(** C5 (amended). The simulator runs in exact-date mode, a single
    simulation on [start_date] itself, exactly when [start_date] is
    strictly before yesterday (at least two days old); for yesterday, today
    and every later date it runs in three-date averaging mode on the
    reference date and the same day one and two years earlier. *)
Theorem dates_to_simulate_modes (env : Env) (start_date yesterday : date) :
  valid_date start_date = true ->
  sub_one_day (now env) = Ret yesterday ->
  (date_ltb start_date yesterday = true ->
   dates_to_simulate env start_date = Ret [start_date])
  /\ (date_ltb start_date yesterday = false ->
      exists reference,
        get_reference_date env start_date = Ret reference
        /\ dates_to_simulate env start_date =
             Ret [reference;
                  mkdate (day reference) (month reference) (year reference - 1);
                  mkdate (day reference) (month reference) (year reference - 2)]).
Proof.
  intros Hv Hy. unfold dates_to_simulate.
  rewrite (datetime_valid _ Hv), Hy. simpl. split; intros Hlt; rewrite Hlt.
  - reflexivity.
  - destruct (get_reference_date_total env start_date yesterday Hv Hy)
      as [r Hr].
    exists r. rewrite Hr. split; reflexivity.
Qed.

(** On 4 November 2026 a session of 1 June 2021 is simulated on its own
    date. *)
Lemma dates_to_simulate_modes_past :
  dates_to_simulate (Sample.world (mkdate 4 11 2026) true) (mkdate 1 6 2021)
  = Ret [mkdate 1 6 2021].
Proof.
  exact (proj1 (dates_to_simulate_modes
                  (Sample.world (mkdate 4 11 2026) true)
                  (mkdate 1 6 2021) (mkdate 3 11 2026) eq_refl eq_refl)
           eq_refl).
Defined.

(** Counterexample to C5 as stated: on 4 November 2026 a session that
    starts that same day, a date that is "today or earlier", is simulated
    in averaging mode on three dates and not on its own date. *)
Lemma start_today_is_averaged :
  let env := Sample.world (mkdate 4 11 2026) true in
  let start_date := now env in
  date_leb start_date (now env) = true
  /\ dates_to_simulate env start_date =
       Ret [mkdate 4 11 2021; mkdate 4 11 2020; mkdate 4 11 2019]
  /\ dates_to_simulate env start_date <> Ret [start_date].
Proof.
  vm_compute. repeat split; discriminate.
Qed.

(** ** Reference dates *)

(** A day that exists in its own year and not in 2021 is 29 February. *)
Lemma only_leap_day_missing_in_2021 (d : date) :
  valid_date d = true ->
  valid_date (mkdate (day d) (month d) 2021) = false ->
  month d = 2%Z /\ day d = 29%Z.
Proof.
  intros Hv H21. apply valid_date_fields in Hv as [Hy [Hm Hd]].
  unfold valid_date in H21. simpl in H21.
  assert (Hgt : (days_in_month 2021 (month d) < day d)%Z).
  { destruct (day d <=? days_in_month 2021 (month d))%Z eqn:E.
    - exfalso. revert H21.
      replace (1 <=? month d)%Z with true by (symmetry; apply Z.leb_le; lia).
      replace (month d <=? 12)%Z with true by (symmetry; apply Z.leb_le; lia).
      replace (1 <=? day d)%Z with true by (symmetry; apply Z.leb_le; lia).
      simpl. discriminate.
    - apply Z.leb_gt in E. exact E. }
  revert Hd Hgt. unfold days_in_month.
  destruct (month d =? 2)%Z eqn:E2.
  - apply Z.eqb_eq in E2. change (is_leap 2021) with false.
    destruct (is_leap (year d)); lia.
  - destruct ((month d =? 4) || (month d =? 6) || (month d =? 9)
              || (month d =? 11))%Z; lia.
Qed.

Lemma no_leap_day_in_2021 (d : date) :
  valid_date (mkdate (day d) (month d) 2021) = true ->
  fallback_day d = day d.
Proof.
  intros Hv. apply valid_date_fields in Hv as [_ [_ Hd]]. simpl in Hd.
  unfold fallback_day.
  destruct (month d =? 2)%Z eqn:E2; [|reflexivity].
  destruct (day d =? 29)%Z eqn:E29; [|reflexivity].
  apply Z.eqb_eq in E2, E29. rewrite E2 in Hd.
  change (days_in_month 2021 2) with 28%Z in Hd. lia.
Qed.

(** The four ways out of [get_reference_date]. *)
Lemma get_reference_date_cases (env : Env) (d y r : date) :
  valid_date d = true -> sub_one_day (now env) = Ret y ->
  get_reference_date env d = Ret r ->
  (date_leb y d = true /\ year d = 2021%Z
   /\ r = mkdate (day d) (month d) 2020)
  \/ (valid_date (mkdate (day d) (month d) 2021) = false
      /\ r = mkdate 28 2 2021)
  \/ (valid_date (mkdate (day d) (month d) 2021) = true
      /\ date_leb y (mkdate (day d) (month d) 2021) = true
      /\ r = mkdate (day d) (month d) 2020)
  \/ (valid_date (mkdate (day d) (month d) 2021) = true
      /\ date_leb y (mkdate (day d) (month d) 2021) = false
      /\ r = mkdate (day d) (month d) 2021).
Proof.
  intros Hv Hy. unfold get_reference_date.
  rewrite (datetime_valid d Hv), Hy. simpl.
  unfold replace_year.
  pose proof (valid_in_2020 d Hv) as H20.
  destruct (date_leb y d && (year d =? 2021)%Z) eqn:E1.
  { rewrite (datetime_valid _ H20). intros E. inversion E; subst r.
    apply andb_true_iff in E1 as [E1 E2]. apply Z.eqb_eq in E2.
    left. auto. }
  replace (year d - (year d - 2021))%Z with 2021%Z by lia.
  destruct (valid_date (mkdate (day d) (month d) 2021)) eqn:H21.
  - rewrite (datetime_valid _ H21). simpl.
    destruct (date_leb y (mkdate (day d) (month d) 2021)) eqn:E3.
    + rewrite (datetime_valid _ H20). unfold try_ValueError.
      intros E. inversion E; subst r. right. right. left. auto.
    + unfold try_ValueError. intros E. inversion E; subst r.
      right. right. right. auto.
  - unfold datetime at 1. rewrite H21. unfold bind, try_ValueError.
    change (datetime (mkdate 28 2 2021)) with (Ret (mkdate 28 2 2021)).
    intros E. inversion E; subst r. right. left. auto.
Qed.

(** The reference date keeps the day and the month of the start date, up
    to the leap-day fallback. *)
Lemma get_reference_date_same_day (env : Env) (d y r : date) :
  valid_date d = true -> sub_one_day (now env) = Ret y ->
  get_reference_date env d = Ret r ->
  day r = fallback_day d /\ month r = month d.
Proof.
  intros Hv Hy Hr.
  destruct (get_reference_date_cases env d y r Hv Hy Hr)
    as [[_ [Y ->]]|[[H21 ->]|[[H21 [_ ->]]|[H21 [_ ->]]]]]; simpl.
  - split; [|reflexivity]. symmetry. apply no_leap_day_in_2021.
    rewrite <- Y. now destruct d.
  - destruct (only_leap_day_missing_in_2021 d Hv H21) as [M D].
    unfold fallback_day. rewrite M, D. auto.
  - split; [|reflexivity]. symmetry. now apply no_leap_day_in_2021.
  - split; [|reflexivity]. symmetry. now apply no_leap_day_in_2021.
Qed.

(** While yesterday lies in 2021 the reference date is the most recent
    same day strictly before yesterday. *)
Lemma get_reference_date_latest (env : Env) (d y r : date) :
  valid_date d = true -> sub_one_day (now env) = Ret y ->
  get_reference_date env d = Ret r ->
  year y = 2021%Z ->
  (fallback_day d <> day d -> date_ltb (mkdate 28 2 2021) y = true) ->
  latest_same_day_before y d r.
Proof.
  intros Hv Hy Hr Y21 Hleap.
  destruct (get_reference_date_same_day env d y r Hv Hy Hr) as [Hd Hm].
  unfold latest_same_day_before. split; [exact Hd|]. split; [exact Hm|].
  destruct (get_reference_date_cases env d y r Hv Hy Hr)
    as [[L [Y ->]]|[[H21 ->]|[[H21 [L ->]]|[H21 [L ->]]]]];
    cbn [day month year] in *.
  - split; date_order.
  - destruct (only_leap_day_missing_in_2021 d Hv H21) as [M D].
    split.
    + apply Hleap. rewrite <- Hd, D. lia.
    + date_order.
  - split; date_order.
  - split; date_order.
Qed.

(** C4 (amended). For a session whose start date has not yet occurred and
    whose location resolves, [get_reference_date] returns a reference date
    that has the day and month of the start date, 29 February falling back
    to 28 February; while yesterday lies in the reference year 2021 (and,
    for a 29 February start, after 28 February 2021) it is the most recent
    such date strictly before yesterday; and when the single-date
    simulations on the reference date and on the same day one and two years
    before it return [s1], [s2] and [s3], the result is their arithmetic
    mean. *)
Theorem future_savings_average (env : Env)
  (initial_state final_state capacity : Z) (power cost : Q)
  (start_time : clock) (start_date : date) (post_code : Z)
  (suburb location_id : string) (yesterday : date) :
  valid_date start_date = true ->
  valid_date (now env) = true ->
  sub_one_day (now env) = Ret yesterday ->
  date_ltb (now env) start_date = true ->
  get_location_id env post_code suburb = Some location_id ->
  exists reference,
    get_reference_date env start_date = Ret reference
    /\ day reference = fallback_day start_date
    /\ month reference = month start_date
    /\ (year yesterday = 2021%Z ->
        (fallback_day start_date <> day start_date ->
         date_ltb (mkdate 28 2 2021) yesterday = true) ->
        latest_same_day_before yesterday start_date reference)
    /\ forall s1 s2 s3,
         simulate_date env initial_state final_state capacity power cost
           start_time post_code location_id reference = Ret (Some s1) ->
         simulate_date env initial_state final_state capacity power cost
           start_time post_code location_id
           (mkdate (day reference) (month reference) (year reference - 1))
         = Ret (Some s2) ->
         simulate_date env initial_state final_state capacity power cost
           start_time post_code location_id
           (mkdate (day reference) (month reference) (year reference - 2))
         = Ret (Some s3) ->
         exists mean,
           calculate_solar_energy_savings_from_any_date env initial_state
             final_state capacity power cost start_time start_date
             post_code suburb = Ret mean
           /\ mean == (s1 + s2 + s3) / 3.
Proof.
  intros Hv Hnow Hy Hfuture Hloc.
  destruct (get_reference_date_total env start_date yesterday Hv Hy)
    as [r Hr].
  destruct (get_reference_date_same_day env start_date yesterday r Hv Hy Hr)
    as [Hd Hm].
  exists r. split; [exact Hr|]. split; [exact Hd|]. split; [exact Hm|].
  split.
  { intros Y21 Hleap.
    exact (get_reference_date_latest env start_date yesterday r Hv Hy Hr
             Y21 Hleap). }
  intros s1 s2 s3 H1 H2 H3.
  destruct (sub_one_day_before (now env) yesterday Hnow Hy) as [Hbefore _].
  assert (Hmode : date_ltb start_date yesterday = false) by date_order.
  unfold calculate_solar_energy_savings_from_any_date. rewrite Hloc.
  unfold dates_to_simulate.
  rewrite (datetime_valid _ Hv), Hy. cbn [bind]. rewrite Hmode, Hr.
  cbn [bind get_preceding_dates_for_average simulate_dates].
  rewrite H1. cbn [bind]. rewrite H2. cbn [bind]. rewrite H3. cbn [bind].
  eexists. split; [reflexivity|].
  unfold py_sum. simpl. field.
Qed.

(** On 15 October 2021 a session for Christmas Day 2021 in Melbourne is
    averaged over Christmas Day 2020, 2019 and 2018. *)
Lemma future_savings_average_christmas :
  let env := Sample.world (mkdate 15 10 2021) true in
  let s := 2106720000000 # 21240000000000 in
  get_reference_date env (mkdate 25 12 2021) = Ret (mkdate 25 12 2020)
  /\ latest_same_day_before (mkdate 14 10 2021) (mkdate 25 12 2021)
       (mkdate 25 12 2020)
  /\ exists mean,
       calculate_solar_energy_savings_from_any_date env 20 30 10 22 15
         (mkclock 12 0 0) (mkdate 25 12 2021) 3000 "Melbourne" = Ret mean
       /\ mean == (s + s + s) / 3.
Proof.
  intros env s.
  destruct (future_savings_average env 20 30 10 22 15 (mkclock 12 0 0)
              (mkdate 25 12 2021) 3000 "Melbourne" "loc-3000"
              (mkdate 14 10 2021) eq_refl eq_refl eq_refl eq_refl eq_refl)
    as [r [Hr [_ [_ [Hlatest Hmean]]]]].
  assert (E : r = mkdate 25 12 2020).
  { change (get_reference_date env (mkdate 25 12 2021))
      with (Ret (mkdate 25 12 2020)) in Hr.
    now inversion Hr. }
  subst r. split; [reflexivity|]. split.
  - apply Hlatest; [reflexivity|].
    intros H. exfalso. apply H. reflexivity.
  - apply (Hmean s s s); vm_compute; reflexivity.
Defined.

(** Counterexample to C4 as stated: on 15 October 2021 a session for
    14 October 2022 is averaged over 14 October 2020, 2019 and 2018,
    although 14 October 2021 has already passed and is nearer. *)
Lemma reference_date_skips_yesterday :
  let env := Sample.world (mkdate 15 10 2021) true in
  let start_date := mkdate 14 10 2022 in
  date_ltb (now env) start_date = true
  /\ get_reference_date env start_date = Ret (mkdate 14 10 2020)
  /\ dates_to_simulate env start_date =
       Ret [mkdate 14 10 2020; mkdate 14 10 2019; mkdate 14 10 2018]
  /\ date_ltb (mkdate 14 10 2021) (now env) = true
  /\ ~ latest_same_day_before (now env) start_date (mkdate 14 10 2020).
Proof.
  repeat split.
  intros [_ [_ [_ H]]]. discriminate H.
Qed.

(** ** Billing *)

Lemma cost_per_minute_inv (base_price : Q) (time_required : Z) (c : Q) :
  cost_per_minute base_price time_required = Ret c ->
  c = base_price / inject_Z (time_required + 1) / 100.
Proof.
  unfold cost_per_minute, py_div.
  destruct (Qeq_bool _ 0); simpl; intros E; now inversion E.
Qed.

Lemma billing_rollover_inv (env : Env) (post_code : Z) (per_minute : Q)
  (s s1 : billing) :
  billing_inv per_minute s ->
  billing_rollover env post_code s = Ret s1 ->
  b_cost s1 = per_minute
  /\ (is_peak (b_current_minute s1) = true -> b_cost_val s1 = per_minute)
  /\ (0 <= b_current_minute s1 < 1440)%Z
  /\ b_count s1 = b_count s.
Proof.
  intros [Hc [Hv Hm]]. unfold billing_rollover.
  destruct (b_current_minute s =? 1440)%Z eqn:E.
  - destruct (get_next_date (b_date s)) as [d|]; [|discriminate]. simpl.
    destruct (get_date_surcharge env d post_code) as [f|]; [|discriminate].
    simpl. intros R. inversion R; subst s1. simpl.
    repeat split; try lia; auto. discriminate.
  - apply Z.eqb_neq in E. intros R. inversion R; subst s1.
    repeat split; try lia; auto.
Qed.

Lemma cost_body_inv (env : Env) (initial_state final_state capacity : Z)
  (base_price : Q) (time_required post_code : Z) (s s' : billing) :
  let per_minute := base_price / inject_Z (time_required + 1) / 100 in
  billing_inv per_minute s ->
  cost_body env initial_state final_state capacity base_price time_required
    post_code s = Ret s' ->
  billing_inv per_minute s'.
Proof.
  intros per_minute Hinv. unfold cost_body.
  destruct (billing_rollover env post_code s) as [s1|] eqn:R; [|discriminate].
  destruct (billing_rollover_inv env post_code per_minute s s1 Hinv R)
    as [Hc [Hv [Hm _]]].
  cbn [bind].
  destruct (is_peak (b_current_minute s1 + 1)
            && negb (is_peak (b_current_minute s1))) eqn:B1.
  { destruct (cost_per_minute base_price time_required) as [c|] eqn:C;
      [|discriminate].
    apply cost_per_minute_inv in C. cbn [bind].
    intros E. inversion E; subst s'. unfold billing_inv. simpl.
    repeat split; auto; lia. }
  destruct (negb (is_peak (b_current_minute s1 + 1))
            && is_peak (b_current_minute s1)) eqn:B2.
  { destruct (cost_per_minute base_price time_required) as [c|] eqn:C;
      [|discriminate].
    apply cost_per_minute_inv in C. cbn [bind].
    intros E. inversion E; subst s'. unfold billing_inv. simpl.
    apply andb_true_iff in B2 as [B2 _]. apply negb_true_iff in B2.
    repeat split; auto; try lia. intros P. congruence. }
  intros E. inversion E; subst s'. unfold billing_inv. simpl.
  repeat split; auto; try lia.
  intros P. rewrite P in B1. simpl in B1. apply negb_false_iff in B1.
  unfold effective_cost_val. rewrite B1. simpl. auto.
Qed.

Lemma billing_head_inv (env : Env) (initial_state final_state capacity : Z)
  (base_price : Q) (time_required post_code : Z) (start_time : clock)
  (start_date : date) (surcharge_factor : Q) (s : billing) :
  let per_minute := base_price / inject_Z (time_required + 1) / 100 in
  valid_clock start_time = true ->
  billing_head env initial_state final_state capacity base_price
    time_required post_code
    (billing_start per_minute start_time start_date surcharge_factor) s ->
  billing_inv per_minute s.
Proof.
  intros per_minute Hclock Hhead. induction Hhead as [|s s' _ IH _ Hbody].
  - unfold billing_inv, billing_start, get_minute_from_start_time. simpl.
    unfold valid_clock in Hclock.
    rewrite !andb_true_iff, !Z.leb_le in Hclock.
    repeat split; auto; lia.
  - exact (cost_body_inv env initial_state final_state capacity base_price
             time_required post_code s s' IH Hbody).
Qed.

(** Every state the loop passes through is a head state. *)
Lemma cost_loop_heads (env : Env) (initial_state final_state capacity : Z)
  (base_price : Q) (time_required post_code : Z) (entry : billing)
  (fuel : nat) (s s' : billing) :
  billing_head env initial_state final_state capacity base_price
    time_required post_code entry s ->
  cost_loop env initial_state final_state capacity base_price time_required
    post_code fuel s = Ret s' ->
  billing_head env initial_state final_state capacity base_price
    time_required post_code entry s'.
Proof.
  revert s. induction fuel as [|fuel IH]; intros s Hs; simpl.
  - intros E. inversion E; subst s'. exact Hs.
  - destruct (b_count s <=? time_required)%Z eqn:C.
    + destruct (cost_body env initial_state final_state capacity base_price
                  time_required post_code s) as [s2|] eqn:B; [|discriminate].
      cbn [bind]. apply IH. apply (head_step _ _ _ _ _ _ _ _ s s2 Hs);
        [now apply Z.leb_le|exact B].
    + intros E. inversion E; subst s'. exact Hs.
Qed.

Lemma cost_body_count (env : Env) (initial_state final_state capacity : Z)
  (base_price : Q) (time_required post_code : Z) (s s' : billing) :
  cost_body env initial_state final_state capacity base_price time_required
    post_code s = Ret s' ->
  b_count s' = (b_count s + 1)%Z.
Proof.
  unfold cost_body.
  destruct (billing_rollover env post_code s) as [s1|] eqn:R; [|discriminate].
  assert (C : b_count s1 = b_count s).
  { revert R. unfold billing_rollover.
    destruct (b_current_minute s =? 1440)%Z.
    - destruct (get_next_date (b_date s)) as [d|]; [|discriminate]. simpl.
      destruct (get_date_surcharge env d post_code); [|discriminate].
      simpl. intros E. now inversion E.
    - intros E. now inversion E. }
  cbn [bind]. rewrite <- C.
  destruct (is_peak (b_current_minute s1 + 1)
            && negb (is_peak (b_current_minute s1)));
    [destruct (cost_per_minute base_price time_required); [|discriminate];
     cbn [bind]; intros E; now inversion E|].
  destruct (negb (is_peak (b_current_minute s1 + 1))
            && is_peak (b_current_minute s1));
    [destruct (cost_per_minute base_price time_required); [|discriminate];
     cbn [bind]; intros E; now inversion E|].
  intros E. now inversion E.
Qed.

(** The fuel is enough: when the loop returns, its test has failed. *)
Lemma cost_loop_exit (env : Env) (initial_state final_state capacity : Z)
  (base_price : Q) (time_required post_code : Z) (fuel : nat)
  (s s' : billing) :
  (time_required + 1 - b_count s <= Z.of_nat fuel)%Z ->
  cost_loop env initial_state final_state capacity base_price time_required
    post_code fuel s = Ret s' ->
  (time_required < b_count s')%Z.
Proof.
  revert s. induction fuel as [|fuel IH]; intros s Hfuel; simpl.
  - intros E. inversion E; subst s'. lia.
  - destruct (b_count s <=? time_required)%Z eqn:C.
    + destruct (cost_body env initial_state final_state capacity base_price
                  time_required post_code s) as [s2|] eqn:B; [|discriminate].
      cbn [bind]. apply IH. rewrite (cost_body_count _ _ _ _ _ _ _ _ _ B).
      lia.
    + intros E. inversion E; subst s'. now apply Z.leb_gt.
Qed.

(** C6 (amended). At every simulated minute of every session the price
    per minute that enters the cost is
    [price / (int(charging_minutes) + 1) / 100] when the minute of the day
    lies in [360, 1080) and exactly half of it otherwise, however many
    times the session has crossed a boundary of the peak window; the
    divisor is the whole number of charging minutes plus one. *)
Theorem effective_price_never_compounds (env : Env)
  (initial_state final_state capacity : Z) (power cost : Q)
  (start_time : clock) (start_date : date) (post_code : Z)
  (time surcharge_factor : Q) (s s1 : billing) :
  let time_required := py_int time in
  let per_minute := cost / inject_Z (time_required + 1) / 100 in
  time_calculation (inject_Z initial_state) (inject_Z final_state)
    (inject_Z capacity) power = Ret time ->
  valid_clock start_time = true ->
  billing_head env initial_state final_state capacity cost time_required
    post_code
    (billing_start per_minute start_time start_date surcharge_factor) s ->
  (b_count s <= time_required)%Z ->
  billing_rollover env post_code s = Ret s1 ->
  (0 <= b_current_minute s1 < 1440)%Z
  /\ effective_cost_val s1 =
       if is_peak (b_current_minute s1) then per_minute else per_minute / 2.
Proof.
  intros time_required per_minute _ Hclock Hhead _ Hroll.
  pose proof (billing_head_inv env initial_state final_state capacity cost
                time_required post_code start_time start_date
                surcharge_factor s Hclock Hhead) as Hinv.
  destruct (billing_rollover_inv env post_code per_minute s s1 Hinv Hroll)
    as [Hc [Hv [Hm _]]].
  split; [exact Hm|].
  unfold effective_cost_val.
  destruct (is_peak (b_current_minute s1)); simpl.
  - now apply Hv.
  - now rewrite Hc.
Qed.

(** A session that starts at 17:59, one minute before the peak window
    closes: after its first iteration the minute is 1080 and the price of
    that minute is half the per-minute price. *)
Lemma effective_price_after_peak_end :
  let env := Sample.world (mkdate 4 11 2026) true in
  let per_minute := 12.5 / inject_Z (py_int (charging_minutes 20 80 60 11) + 1)
                    / 100 in
  exists s1,
    cost_body env 20 80 60 12.5 196 3000
      (billing_start per_minute (mkclock 17 59 0) (mkdate 1 6 2021) 1.1)
    = Ret s1
    /\ b_current_minute s1 = 1080%Z
    /\ effective_cost_val s1 = per_minute / 2.
Proof.
  intros env per_minute.
  set (entry := billing_start per_minute (mkclock 17 59 0) (mkdate 1 6 2021)
                  1.1).
  destruct (cost_body env 20 80 60 12.5 196 3000 entry) as [s1|] eqn:B;
    [|vm_compute in B; discriminate].
  assert (M : b_current_minute s1 = 1080%Z).
  { vm_compute in B. inversion B. reflexivity. }
  assert (C : b_count s1 = 1%Z).
  { vm_compute in B. inversion B. reflexivity. }
  exists s1. split; [reflexivity|]. split; [exact M|].
  assert (R : billing_rollover env 3000 s1 = Ret s1).
  { unfold billing_rollover. rewrite M. reflexivity. }
  assert (L : (b_count s1 <= py_int (charging_minutes 20 80 60 11))%Z).
  { rewrite C. vm_compute. intros X. discriminate X. }
  assert (L0 : (b_count entry <= py_int (charging_minutes 20 80 60 11))%Z).
  { vm_compute. intros X. discriminate X. }
  destruct (effective_price_never_compounds env 20 80 60 11 12.5
              (mkclock 17 59 0) (mkdate 1 6 2021) 3000
              (charging_minutes 20 80 60 11) 1.1 s1 s1 eq_refl eq_refl
              (head_step _ _ _ _ _ _ _ _ entry s1
                 (head_entry _ _ _ _ _ _ _ _) L0 B)
              L R) as [_ H].
  rewrite M in H. exact H.
Defined.

(** Counterexample to C6 as stated: the session of 20% to 80% of 60 kWh on
    the 11 kW charger has [charging_minutes = 196.36]; at its first minute,
    08:00, a peak minute, the price per minute is [12.5 / 197 / 100], the
    divisor being the whole minutes plus one, and not
    [12.5 / (196.36 + 1) / 100]. *)
Lemma per_minute_price_uses_whole_minutes :
  let env := Sample.world (mkdate 4 11 2026) true in
  let charging := charging_minutes 20 80 60 11 in
  let entry := billing_start (12.5 / inject_Z (py_int charging + 1) / 100)
                 (mkclock 8 0 0) (mkdate 1 6 2021) 1.1 in
  time_calculation 20 80 60 11 = Ret charging
  /\ charging == 196.36
  /\ billing_rollover env 3000 entry = Ret entry
  /\ is_peak (b_current_minute entry) = true
  /\ effective_cost_val entry == 12.5 / 197 / 100
  /\ ~ effective_cost_val entry == 12.5 / (charging + 1) / 100.
Proof.
  repeat split; try (vm_compute; reflexivity).
  vm_compute. intros X. discriminate X.
Qed.

(** ** The facade *)



(** The facade hands back the signal value only on the signal of the
    savings: after a cost was returned, whatever it is. *)
Lemma unavailable_only_from_savings (env : Env)
  (initial_state final_state capacity charger_configuration : Z)
  (start_time : clock) (start_date : date) (post_code : Z) (suburb : string) :
  get_charging_cost env initial_state final_state capacity
    charger_configuration start_time start_date post_code suburb
  = Ret Unavailable ->
  exists total_cost money_saved,
    cost_calculation env initial_state final_state capacity
      (fst (get_power charger_configuration))
      (snd (get_power charger_configuration)) start_time start_date post_code
    = Ret total_cost
    /\ calculate_solar_energy_savings_from_any_date env initial_state
         final_state capacity (fst (get_power charger_configuration))
         (snd (get_power charger_configuration)) start_time start_date
         post_code suburb = Ret money_saved
    /\ money_saved == -1.
Proof.
  unfold get_charging_cost.
  destruct (get_power charger_configuration) as [power cost]. cbn [fst snd].
  destruct (cost_calculation _ _ _ _ _ _ _ _ _) as [total|]; [|discriminate].
  cbn [bind].
  destruct (calculate_solar_energy_savings_from_any_date _ _ _ _ _ _ _ _ _ _)
    as [saved|]; [|discriminate].
  cbn [bind].
  destruct (Qeq_bool saved (-1)) eqn:E.
  - intros _. exists total, saved. repeat split. now apply Qeq_bool_eq.
  - destruct (Qle_bool total saved); [discriminate|].
    destruct (negb (Qle_bool (total - saved) 1)); discriminate.
Qed.

(** C2 (the code departs from the claim). Three sessions of 20% to 80% of
    60 kWh on the 11 kW charger.  With the registry down, a start on
    Saturday 6 February 2021 in Sydney ends in [TypeError], and so does a
    start at 23:00 on the Friday before, whose lookup fails after the
    midnight rollover.  With a postcode outside every jurisdiction range
    that the location provider resolves, [cost_calculation] returns -1 and
    the facade still returns an amount, "$1.87".  None of the three is the
    signal value -1. *)
Theorem failed_lookup_not_reported :
  let down := Sample.world (mkdate 4 11 2026) false in
  let up := Sample.world (mkdate 4 11 2026) true in
  get_charging_cost down 20 80 60 4 (mkclock 8 0 0) (mkdate 6 2 2021) 2000
    "Sydney" = Raise TypeError
  /\ get_charging_cost down 20 80 60 4 (mkclock 23 0 0) (mkdate 5 2 2021) 2000
       "Sydney" = Raise TypeError
  /\ state_of_post_code 6798 = None
  /\ cost_calculation up 20 80 60 11 12.5 (mkclock 8 0 0) (mkdate 6 2 2021)
       6798 = Ret (-1)
  /\ get_charging_cost up 20 80 60 4 (mkclock 8 0 0) (mkdate 6 2 2021) 6798
       "Christmas Island" = Ret (Dollars 1.87).
Proof.
  repeat split; vm_compute; reflexivity.
Qed.

(** ** The index into the hourly cloud cover *)

Lemma hour_index_value (charging_hours_spent_in_sunlight time : Z) :
  hour_index charging_hours_spent_in_sunlight time
  = ((charging_hours_spent_in_sunlight * 60 + time) / 60)%Z.
Proof.
  unfold hour_index.
  rewrite (Qfloor_comp _ (inject_Z (charging_hours_spent_in_sunlight * 60
                                    + time) / inject_Z 60)).
  - symmetry. apply Zdiv_Qdiv.
  - field.
Qed.

(** The index leaves the 24 entries as soon as the windows closed so far,
    an hour each, and [time] add up to a day. *)
Lemma hour_index_overflow (charging_hours_spent_in_sunlight time : Z)
  (cc : list Q) :
  List.length cc = 24%nat ->
  (1440 <= charging_hours_spent_in_sunlight * 60 + time)%Z ->
  py_index cc (hour_index charging_hours_spent_in_sunlight time)
  = Raise IndexError.
Proof.
  intros Hlen Hsum. rewrite hour_index_value.
  assert (H24 : (24 <= (charging_hours_spent_in_sunlight * 60 + time) / 60)%Z)
    by (apply Z.div_le_lower_bound; lia).
  unfold py_index. rewrite Hlen.
  destruct (_ <? 0)%Z eqn:N; [apply Z.ltb_lt in N; lia|].
  replace (_ <? Z.of_nat 24)%Z with false
    by (symmetry; apply Z.ltb_ge; simpl; lia).
  now rewrite andb_false_r.
Qed.

Lemma savings_body_count (env : Env) (power cost : Q)
  (time_required post_code : Z) (location_id : string)
  (s s' : savings_state) :
  savings_body env power cost time_required post_code location_id s
  = Ret (Some s') ->
  v_count s' = (v_count s + 1)%Z.
Proof.
  unfold savings_body.
  destruct (savings_rollover env post_code location_id s) as [[s1|]|] eqn:R;
    try discriminate.
  assert (C : v_count s1 = v_count s).
  { revert R. unfold savings_rollover.
    destruct (v_current_minute s =? 1440)%Z.
    - destruct (get_next_date _) as [d|]; [|discriminate]. cbn [bind].
      destruct (get_date_surcharge env d post_code); [|discriminate].
      cbn [bind].
      destruct (load_daylight env location_id d) as [[dy|]|];
        try discriminate.
      cbn [bind]. intros E. now inversion E.
    - intros E. now inversion E. }
  cbn [bind]. rewrite <- C.
  destruct (closes_window time_required s1).
  - unfold close_window.
    destruct (py_index _ _); [|discriminate]. cbn [bind].
    destruct (py_div _ _); [|discriminate]. cbn [bind].
    intros E. now inversion E.
  - cbn [bind]. intros E. now inversion E.
Qed.

(** The fuel of the savings loop is enough as well. *)
Lemma savings_loop_exit (env : Env) (power cost : Q)
  (time_required post_code : Z) (location_id : string) (fuel : nat)
  (s s' : savings_state) :
  (time_required - v_count s <= Z.of_nat fuel)%Z ->
  savings_loop env power cost time_required post_code location_id fuel s
  = Ret (Some s') ->
  (time_required <= v_count s')%Z.
Proof.
  revert s. induction fuel as [|fuel IH]; intros s Hfuel; simpl.
  - intros E. inversion E; subst s'. lia.
  - destruct (v_count s <? time_required)%Z eqn:C.
    + destruct (savings_body env power cost time_required post_code
                  location_id s) as [[s2|]|] eqn:B; try discriminate.
      cbn [bind]. apply IH. rewrite (savings_body_count _ _ _ _ _ _ _ _ B).
      lia.
    + intros E. inversion E; subst s'. now apply Z.ltb_ge.
Qed.

(** C10 (the code departs from the claim). A battery of 100 kWh charged
    from 0% to 100% at 2 kW from 08:00 on 1 June 2021 takes 3000 minutes.
    Ten windows close on the first day; on the second day [time] restarts
    at sunrise, 07:20, while the count of closed windows keeps growing, so
    the seventeenth window, at 13:59, computes index 24 and the access to
    the 24 cloud-cover entries raises [IndexError]. *)
Theorem cloud_cover_index_overflows :
  let env := Sample.world (mkdate 4 11 2026) true in
  time_calculation 0 100 100 2 = Ret 3000.00
  /\ hour_index 17 440 = 24%Z
  /\ calculate_solar_energy_savings_from_any_date env 0 100 100 2 5
       (mkclock 8 0 0) (mkdate 1 6 2021) 3000 "Melbourne" = Raise IndexError.
Proof.
  repeat split; vm_compute; reflexivity.
Qed.

(** * Further properties of the calculator *)

(** ** The next date *)

Lemma days_before_month_next (y m : Z) :
  (1 <= m)%Z ->
  days_before_month y (m + 1) = (days_before_month y m + days_in_month y m)%Z.
Proof.
  intros Hm. unfold days_before_month.
  replace (Z.to_nat (m + 1 - 1)) with (S (Z.to_nat (m - 1))) by lia.
  cbn [days_before_month_aux]. f_equal. f_equal. lia.
Qed.

Lemma days_before_december (y : Z) :
  days_before_month y 12 = (334 + if is_leap y then 1 else 0)%Z.
Proof.
  unfold days_before_month. simpl. unfold days_in_month. simpl.
  destruct (is_leap y); reflexivity.
Qed.

Lemma days_before_year_next (y : Z) :
  days_before_year (y + 1)
  = (days_before_year y + 365 + if is_leap y then 1 else 0)%Z.
Proof.
  unfold days_before_year, is_leap. cbv zeta.
  replace (y + 1 - 1)%Z with y by lia.
  destruct (y mod 4 =? 0)%Z eqn:E4; destruct (y mod 100 =? 0)%Z eqn:E100;
    destruct (y mod 400 =? 0)%Z eqn:E400; simpl;
    rewrite ?Z.eqb_eq, ?Z.eqb_neq in *;
    Z.div_mod_to_equations; lia.
Qed.

Lemma next_date_is_successor (d d' : date) :
  valid_date d = true ->
  get_next_date d = Ret d' ->
  valid_date d' = true
  /\ toordinal d' = (toordinal d + 1)%Z
  /\ weekday d' = ((weekday d + 1) mod 7)%Z.
Proof.
  intros Hv. unfold get_next_date. rewrite (datetime_valid d Hv). cbn [bind].
  destruct (valid_date_fields d Hv) as [Hy [Hm Hd]].
  pose proof (days_in_month_bounds (year d) (month d)) as Hb.
  assert (Hord : forall e, toordinal e = (toordinal d + 1)%Z ->
                   weekday e = ((weekday d + 1) mod 7)%Z).
  { intros e He. unfold weekday. rewrite He.
    Z.div_mod_to_equations. lia. }
  unfold add_one_day.
  destruct (day d <? days_in_month (year d) (month d))%Z eqn:E1.
  { apply Z.ltb_lt in E1. intros E. inversion E; subst d'.
    assert (O : toordinal (mkdate (day d + 1) (month d) (year d))
                = (toordinal d + 1)%Z) by (unfold toordinal; simpl; lia).
    split; [apply valid_date_intro; simpl; lia|]. split; [exact O|auto]. }
  apply Z.ltb_ge in E1.
  destruct (month d <? 12)%Z eqn:E2.
  { apply Z.ltb_lt in E2. intros E. inversion E; subst d'.
    pose proof (days_in_month_bounds (year d) (month d + 1)).
    assert (O : toordinal (mkdate 1 (month d + 1) (year d))
                = (toordinal d + 1)%Z).
    { unfold toordinal. simpl.
      rewrite (days_before_month_next (year d) (month d)) by lia. lia. }
    split; [apply valid_date_intro; simpl; lia|]. split; [exact O|auto]. }
  apply Z.ltb_ge in E2.
  destruct (year d <? 9999)%Z eqn:E3; [|discriminate].
  apply Z.ltb_lt in E3. intros E. inversion E; subst d'.
  assert (M : month d = 12%Z) by lia.
  assert (D : day d = 31%Z).
  { rewrite M in Hd, E1. change (days_in_month (year d) 12) with 31%Z in *.
    lia. }
  assert (O : toordinal (mkdate 1 1 (year d + 1)) = (toordinal d + 1)%Z).
  { unfold toordinal. simpl. rewrite M, D.
    rewrite days_before_year_next, days_before_december.
    change (days_before_month (year d + 1) 1) with 0%Z. lia. }
  split; [apply valid_date_intro; simpl; try lia|].
  - change (days_in_month (year d + 1) 1) with 31%Z. lia.
  - split; [exact O|auto].
Qed.

(** [get_next_date] moves to the following day: the proleptic ordinal
    grows by one, the result exists, and the weekday advances by one. *)
Theorem get_next_date_succ (d d' : date) :
  valid_date d = true ->
  get_next_date d = Ret d' ->
  valid_date d' = true
  /\ toordinal d' = (toordinal d + 1)%Z
  /\ weekday d' = ((weekday d + 1) mod 7)%Z.
Proof.
  intros Hv Hnext. exact (next_date_is_successor d d' Hv Hnext).
Qed.

(** It fails only on the last day of year 9999. *)
Lemma get_next_date_returns (d : date) :
  valid_date d = true -> (year d < 9999)%Z ->
  exists d', get_next_date d = Ret d'.
Proof.
  intros Hv Hy. unfold get_next_date. rewrite (datetime_valid d Hv).
  cbn [bind]. unfold add_one_day.
  destruct (day d <? _)%Z; [eauto|].
  destruct (month d <? 12)%Z; [eauto|].
  apply Z.ltb_lt in Hy. rewrite Hy. eauto.
Qed.

(** New Year's Eve 2020, a Thursday in a leap year. *)
Lemma get_next_date_succ_new_year :
  get_next_date (mkdate 31 12 2020) = Ret (mkdate 1 1 2021)
  /\ toordinal (mkdate 1 1 2021) = (toordinal (mkdate 31 12 2020) + 1)%Z
  /\ weekday (mkdate 1 1 2021) = 4%Z.
Proof.
  split; [reflexivity|].
  destruct (get_next_date_succ (mkdate 31 12 2020) (mkdate 1 1 2021)
              eq_refl eq_refl) as [_ [O W]].
  split; [exact O|]. rewrite W. reflexivity.
Defined.

(** ** The values of the surcharge *)

Lemma surcharge_is_signal_or_factor (env : Env) (d : date) (code : Z) :
  (state_of_post_code code = None ->
   get_date_surcharge env d code = Ret (-1))
  /\ (forall f, get_date_surcharge env d code = Ret f ->
        (state_of_post_code code = None /\ f = -1)
        \/ (state_of_post_code code <> None /\ (f = 1 \/ f = 1.1))).
Proof.
  unfold get_date_surcharge. split.
  - intros E. now rewrite E.
  - intros f. destruct (state_of_post_code code) as [state|].
    + intros H. right. split; [discriminate|]. revert H.
      destruct (is_date_in_school_term env d state) as [[|]|];
        cbn [bind negb]; try discriminate.
      * destruct (is_date_weekday d) as [[|]|]; cbn [bind]; try discriminate.
        -- intros E. inversion E. auto.
        -- destruct (py_in state (get_date_data env d)) as [[|]|];
             cbn [bind]; try discriminate; intros E; inversion E; auto.
      * intros E. inversion E. auto.
    + intros E. inversion E. left. auto.
Qed.

(** [get_date_surcharge] hands back -1 for a postcode outside every range,
    whatever the date (the date is not even parsed), and nothing but 1 or
    1.1 for a postcode inside a range. *)
Theorem get_date_surcharge_values (env : Env) (d : date) (code : Z) :
  (state_of_post_code code = None ->
   get_date_surcharge env d code = Ret (-1))
  /\ (forall f, get_date_surcharge env d code = Ret f ->
        (state_of_post_code code = None /\ f = -1)
        \/ (state_of_post_code code <> None /\ (f = 1 \/ f = 1.1))).
Proof.
  split.
  - exact (proj1 (surcharge_is_signal_or_factor env d code)).
  - intros f Hf. exact (proj2 (surcharge_is_signal_or_factor env d code) f Hf).
Qed.

(** Postcode 6798 lies in no range; 30 February is no date. *)
Lemma get_date_surcharge_values_no_range :
  get_date_surcharge (Sample.world (mkdate 4 11 2026) true)
    (mkdate 30 2 2021) 6798 = Ret (-1).
Proof.
  exact (proj1 (get_date_surcharge_values
                  (Sample.world (mkdate 4 11 2026) true)
                  (mkdate 30 2 2021) 6798) eq_refl).
Defined.

(** ** The billed cost *)

Lemma billing_rollover_fields (env : Env) (post_code : Z) (s s1 : billing) :
  billing_rollover env post_code s = Ret s1 ->
  b_count s1 = b_count s /\ b_final_cost s1 = b_final_cost s
  /\ ((b_current_minute s <> 1440%Z /\ s1 = s)
      \/ (b_current_minute s = 1440%Z /\ b_current_minute s1 = 1%Z
          /\ get_next_date (b_date s) = Ret (b_date s1)
          /\ get_date_surcharge env (b_date s1) post_code
             = Ret (b_surcharge_factor s1))).
Proof.
  unfold billing_rollover.
  destruct (b_current_minute s =? 1440)%Z eqn:E.
  - apply Z.eqb_eq in E.
    destruct (get_next_date (b_date s)) as [d|]; [|discriminate]. cbn [bind].
    destruct (get_date_surcharge env d post_code) as [f|] eqn:F;
      [|discriminate].
    cbn [bind]. intros R. inversion R; subst s1. simpl.
    repeat split. right. auto.
  - apply Z.eqb_neq in E. intros R. inversion R; subst s1.
    repeat split. left. auto.
Qed.

Lemma cost_body_fields (env : Env) (initial_state final_state capacity : Z)
  (base_price : Q) (time_required post_code : Z) (s s' : billing) :
  cost_body env initial_state final_state capacity base_price time_required
    post_code s = Ret s' ->
  exists s1,
    billing_rollover env post_code s = Ret s1
    /\ b_count s' = (b_count s1 + 1)%Z
    /\ b_current_minute s' = (b_current_minute s1 + 1)%Z
    /\ b_date s' = b_date s1
    /\ b_surcharge_factor s' = b_surcharge_factor s1
    /\ b_final_cost s' =
         b_final_cost s1
         + inject_Z (final_state - initial_state) / 100 * inject_Z capacity
           * effective_cost_val s1 * b_surcharge_factor s1.
Proof.
  unfold cost_body.
  destruct (billing_rollover env post_code s) as [s1|]; [|discriminate].
  cbn [bind]. intros H. exists s1. split; [reflexivity|]. revert H.
  destruct (is_peak (b_current_minute s1 + 1)
            && negb (is_peak (b_current_minute s1)));
    [destruct (cost_per_minute base_price time_required); [|discriminate];
     cbn [bind]; intros E; inversion E; simpl; auto 6|].
  destruct (negb (is_peak (b_current_minute s1 + 1))
            && is_peak (b_current_minute s1));
    [destruct (cost_per_minute base_price time_required); [|discriminate];
     cbn [bind]; intros E; inversion E; simpl; auto 6|].
  intros E. inversion E. simpl. auto 6.
Qed.

(** What the price of one minute can be. *)
Lemma minute_price_bounds (e p k f : Q) :
  0 <= e -> 0 <= p -> (k = p \/ k = p / 2) -> (f = 1 \/ f = 1.1) ->
  e * p / 2 <= e * k * f <= e * p * 1.1.
Proof.
  intros He Hp Hk Hf.
  assert (Hep : 0 <= e * p) by (apply Qmult_le_0_compat; assumption).
  destruct Hk as [-> | ->], Hf as [-> | ->].
  - setoid_replace (e * p / 2) with (e * p * (1 # 2)) by field.
    setoid_replace (e * p * 1) with (e * p) by ring. lra.
  - setoid_replace (e * p / 2) with (e * p * (1 # 2)) by field. lra.
  - setoid_replace (e * (p / 2) * 1) with (e * p / 2) by field.
    setoid_replace (e * p / 2) with (e * p * (1 # 2)) by field. lra.
  - setoid_replace (e * (p / 2) * 1.1) with (e * p * (11 # 20)) by field.
    setoid_replace (e * p / 2) with (e * p * (1 # 2)) by field. lra.
Qed.

(** At every head of the billing loop the running total lies between the
    all-off-peak and the all-surcharged price of the minutes billed. *)
Lemma billing_head_bounds (env : Env) (initial_state final_state capacity : Z)
  (base_price : Q) (time_required post_code : Z) (start_time : clock)
  (start_date : date) (surcharge_factor : Q) (s : billing) :
  let per_minute := base_price / inject_Z (time_required + 1) / 100 in
  let energy :=
    inject_Z (final_state - initial_state) / 100 * inject_Z capacity in
  0 <= energy -> 0 <= per_minute -> (0 <= time_required)%Z ->
  state_of_post_code post_code <> None ->
  (surcharge_factor = 1 \/ surcharge_factor = 1.1) ->
  valid_clock start_time = true ->
  billing_head env initial_state final_state capacity base_price
    time_required post_code
    (billing_start per_minute start_time start_date surcharge_factor) s ->
  (b_surcharge_factor s = 1 \/ b_surcharge_factor s = 1.1)
  /\ (0 <= b_count s <= time_required + 1)%Z
  /\ inject_Z (b_count s) * (energy * per_minute / 2) <= b_final_cost s
  /\ b_final_cost s <= inject_Z (b_count s) * (energy * per_minute * 1.1).
Proof.
  intros per_minute energy He Hp HT Hcode Hsf Hclock Hhead.
  pose proof (billing_head_inv env initial_state final_state capacity
                base_price time_required post_code start_time start_date
                surcharge_factor) as Hinv.
  cbv zeta in Hinv. fold per_minute in Hinv.
  induction Hhead as [|s s' Hs IH Hle Hbody].
  - simpl. repeat split; auto; try lia.
    + change (inject_Z 0) with 0. lra.
    + change (inject_Z 0) with 0. lra.
  - destruct IH as [Hf [Hc [Hlo Hhi]]].
    destruct (cost_body_fields _ _ _ _ _ _ _ _ _ Hbody)
      as [s1 [R [C [_ [_ [F FC]]]]]].
    destruct (billing_rollover_fields env post_code s s1 R)
      as [C1 [FC1 Hroll]].
    destruct (billing_rollover_inv env post_code per_minute s s1
                (Hinv s Hclock Hs) R) as [Hcost [Hval _]].
    assert (Hf1 : b_surcharge_factor s1 = 1 \/ b_surcharge_factor s1 = 1.1).
    { destruct Hroll as [[_ ->]|[_ [_ [_ G]]]]; [exact Hf|].
      destruct (proj2 (surcharge_is_signal_or_factor env (b_date s1) post_code)
                  _ G) as [[N _]|[_ V]]; [contradiction|exact V]. }
    assert (Hk : effective_cost_val s1 = per_minute
                 \/ effective_cost_val s1 = per_minute / 2).
    { unfold effective_cost_val.
      destruct (is_peak (b_current_minute s1)); simpl.
      - left. now apply Hval.
      - right. now rewrite Hcost. }
    pose proof (minute_price_bounds energy per_minute _ _ He Hp Hk Hf1)
      as [Plo Phi].
    rewrite F, C, C1, FC, FC1. split; [exact Hf1|]. split; [lia|].
    rewrite inject_Z_plus. change (inject_Z 1) with 1.
    fold energy. split; lra.
Qed.

Lemma py_int_nonneg (x : Q) : 0 <= x -> (0 <= py_int x)%Z.
Proof.
  intros Hx. unfold py_int. apply Z.quot_pos; [|lia].
  unfold Qle in Hx. simpl in Hx. lia.
Qed.

Lemma time_calculation_returns (i f cap p : Q) :
  i < f -> 0 < cap -> 0 < p ->
  exists time, time_calculation i f cap p = Ret time /\ 0 <= time.
Proof.
  intros Hif Hcap Hp. unfold time_calculation, py_div.
  destruct (Qeq_bool p 0) eqn:E; [apply Qeq_bool_eq in E; lra|].
  cbn [bind]. eexists. split; [reflexivity|].
  apply py_round_nonneg.
  assert (H := minutes_formula_mono 0 (f - i) cap cap p p).
  assert (Z0 : 0 / 100 * cap / p * 60 == 0) by (unfold Qdiv; ring).
  rewrite Z0 in H. apply H; lra.
Qed.

Lemma cost_per_minute_returns (base_price : Q) (time_required : Z) :
  (0 <= time_required)%Z ->
  cost_per_minute base_price time_required
  = Ret (base_price / inject_Z (time_required + 1) / 100)
  /\ 0 < inject_Z (time_required + 1).
Proof.
  intros HT.
  assert (Hpos : 0 < inject_Z (time_required + 1)).
  { change 0 with (inject_Z 0). rewrite <- Zlt_Qlt. lia. }
  split; [|exact Hpos].
  unfold cost_per_minute, py_div.
  destruct (Qeq_bool _ 0) eqn:E; [apply Qeq_bool_eq in E; lra|reflexivity].
Qed.

Lemma billed_cost_between (env : Env)
  (initial_state final_state capacity : Z) (power cost : Q)
  (start_time : clock) (start_date : date) (post_code : Z) (c : Q) :
  (initial_state < final_state)%Z -> (0 < capacity)%Z ->
  0 < power -> 0 <= cost ->
  valid_clock start_time = true ->
  state_of_post_code post_code <> None ->
  cost_calculation env initial_state final_state capacity power cost
    start_time start_date post_code = Ret c ->
  let energy :=
    inject_Z (final_state - initial_state) / 100 * inject_Z capacity in
  py_round (energy * cost / 100 / 2) 2 <= c
  /\ c <= py_round (energy * cost / 100 * 1.1) 2.
Proof.
  intros Hif Hcap Hpow Hcost Hclock Hcode Hret energy.
  assert (Hif' : inject_Z initial_state < inject_Z final_state)
    by (rewrite <- Zlt_Qlt; exact Hif).
  assert (Hcap' : 0 < inject_Z capacity)
    by (change 0 with (inject_Z 0); rewrite <- Zlt_Qlt; exact Hcap).
  destruct (time_calculation_returns _ _ _ _ Hif' Hcap' Hpow)
    as [time [Htime Hnn]].
  pose proof (py_int_nonneg time Hnn) as HT.
  destruct (cost_per_minute_returns cost (py_int time) HT) as [Hpm Hpos].
  revert Hret. unfold cost_calculation. rewrite Htime. cbn [bind].
  rewrite Hpm. cbn [bind].
  destruct (get_date_surcharge env start_date post_code) as [sf|] eqn:G;
    [|discriminate].
  cbn [bind].
  destruct (proj2 (surcharge_is_signal_or_factor env start_date post_code) _ G)
    as [[N _]|[_ V]]; [contradiction|].
  assert (Hsig : Qeq_bool sf (-1) = false) by (destruct V as [-> | ->]; reflexivity).
  rewrite Hsig.
  set (per_minute := cost / inject_Z (py_int time + 1) / 100).
  set (entry := billing_start per_minute start_time start_date sf).
  destruct (cost_loop env initial_state final_state capacity cost
              (py_int time) post_code (Z.to_nat (py_int time + 1)) entry)
    as [s|] eqn:L; [|discriminate].
  cbn [bind]. intros E. inversion E; subst c. clear E.
  assert (He : 0 <= energy).
  { unfold energy. apply Qmult_le_0_compat; [|lra].
    apply Qle_shift_div_l; [reflexivity|].
    rewrite Qmult_0_l. change 0 with (inject_Z 0). rewrite <- Zle_Qle. lia. }
  assert (Hp : 0 <= per_minute).
  { unfold per_minute. apply Qle_shift_div_l; [reflexivity|].
    rewrite Qmult_0_l. apply Qle_shift_div_l; [exact Hpos|].
    now rewrite Qmult_0_l. }
  pose proof (cost_loop_heads env initial_state final_state capacity cost
                (py_int time) post_code entry _ entry s
                (head_entry _ _ _ _ _ _ _ _) L) as Hhead.
  destruct (billing_head_bounds env initial_state final_state capacity cost
              (py_int time) post_code start_time start_date sf s
              He Hp HT Hcode V Hclock Hhead) as [_ [Hc [Hlo Hhi]]].
  assert (Hexit : (py_int time < b_count s)%Z).
  { apply (cost_loop_exit env initial_state final_state capacity cost
             (py_int time) post_code (Z.to_nat (py_int time + 1)) entry s);
      [simpl; lia|exact L]. }
  assert (Hcount : b_count s = (py_int time + 1)%Z) by lia.
  rewrite Hcount in Hlo, Hhi. fold energy per_minute in Hlo, Hhi.
  assert (Elo : inject_Z (py_int time + 1) * (energy * per_minute / 2)
                == energy * cost / 100 / 2)
    by (unfold per_minute; field; lra).
  assert (Ehi : inject_Z (py_int time + 1) * (energy * per_minute * 1.1)
                == energy * cost / 100 * 1.1)
    by (unfold per_minute; field; lra).
  rewrite Elo in Hlo. rewrite Ehi in Hhi.
  split; apply py_round_mono; assumption.
Qed.



(** The signal value of [cost_calculation] cannot be mistaken for a cost:
    for a valid session that returns, the result is -1 exactly when the
    postcode lies in no jurisdiction range. *)
Theorem cost_calculation_signal (env : Env)
  (initial_state final_state capacity : Z) (power cost : Q)
  (start_time : clock) (start_date : date) (post_code : Z) (c : Q) :
  (initial_state < final_state)%Z -> (0 < capacity)%Z ->
  0 < power -> 0 <= cost ->
  valid_clock start_time = true ->
  cost_calculation env initial_state final_state capacity power cost
    start_time start_date post_code = Ret c ->
  (c == -1 <-> state_of_post_code post_code = None).
Proof.
  intros Hif Hcap Hpow Hcost Hclock Hret. split.
  - intros Hc. destruct (state_of_post_code post_code) as [state|] eqn:S;
      [|reflexivity].
    exfalso.
    assert (Hcode : state_of_post_code post_code <> None)
      by (rewrite S; discriminate).
    destruct (billed_cost_between env initial_state final_state capacity
                power cost start_time start_date post_code c Hif Hcap Hpow
                Hcost Hclock Hcode Hret) as [Hlo _].
    assert (H0 : 0 <= py_round (inject_Z (final_state - initial_state) / 100
                                * inject_Z capacity * cost / 100 / 2) 2).
    { apply py_round_nonneg.
      assert (A : 0 <= inject_Z (final_state - initial_state))
        by (change 0 with (inject_Z 0); rewrite <- Zle_Qle; lia).
      assert (B : 0 <= inject_Z capacity)
        by (change 0 with (inject_Z 0); rewrite <- Zle_Qle; lia).
      assert (AB : 0 <= inject_Z (final_state - initial_state)
                        * inject_Z capacity)
        by (apply Qmult_le_0_compat; assumption).
      assert (ABC : 0 <= inject_Z (final_state - initial_state)
                         * inject_Z capacity * cost)
        by (apply Qmult_le_0_compat; assumption).
      setoid_replace (inject_Z (final_state - initial_state) / 100
                      * inject_Z capacity * cost / 100 / 2)
        with (inject_Z (final_state - initial_state) * inject_Z capacity
              * cost * (1 # 20000)) by field.
      lra. }
    lra.
  - intros N. revert Hret. unfold cost_calculation.
    destruct (time_calculation _ _ _ _) as [time|]; [|discriminate].
    cbn [bind].
    destruct (cost_per_minute cost (py_int time)) as [p|]; [|discriminate].
    cbn [bind].
    rewrite (proj1 (surcharge_is_signal_or_factor env start_date post_code) N).
    cbn [bind]. change (Qeq_bool (-1) (-1)) with true. cbv iota.
    intros E. inversion E. reflexivity.
Qed.

(** Postcode 6798 again: the session of the bound above returns -1. *)
Lemma cost_calculation_signal_example :
  let env := Sample.world (mkdate 4 11 2026) true in
  cost_calculation env 20 30 10 22 15 (mkclock 12 0 0) (mkdate 1 6 2021) 6798
  = Ret (-1)
  /\ (-1 == -1 <-> state_of_post_code 6798 = None).
Proof.
  intros env.
  assert (H : cost_calculation env 20 30 10 22 15 (mkclock 12 0 0)
                (mkdate 1 6 2021) 6798 = Ret (-1))
    by (vm_compute; reflexivity).
  split; [exact H|].
  apply (cost_calculation_signal env 20 30 10 22 15 (mkclock 12 0 0)
           (mkdate 1 6 2021) 6798 (-1)); try reflexivity;
    try discriminate; exact H.
Defined.

(** ** The clock of the billing loop *)

(** At every head of the billing loop the date exists, the minute lies in
    0..1440 and minute and date account for the minutes billed so far with
    1439 minutes to the day: after a rollover the day restarts at minute 1
    and minute 1440 is never billed, so each day after the first holds
    1439 simulated minutes. *)
Theorem billing_clock (env : Env) (initial_state final_state capacity : Z)
  (base_price : Q) (time_required post_code : Z) (cost : Q)
  (start_time : clock) (start_date : date) (surcharge_factor : Q)
  (s : billing) :
  valid_date start_date = true ->
  valid_clock start_time = true ->
  billing_head env initial_state final_state capacity base_price
    time_required post_code
    (billing_start cost start_time start_date surcharge_factor) s ->
  valid_date (b_date s) = true
  /\ (0 <= b_current_minute s <= 1440)%Z
  /\ (1439 * toordinal (b_date s) + b_current_minute s
      = 1439 * toordinal start_date
        + get_minute_from_start_time start_time + b_count s)%Z.
Proof.
  intros Hdate Hclock Hhead.
  induction Hhead as [|s s' Hs IH Hle Hbody].
  - simpl. unfold get_minute_from_start_time.
    unfold valid_clock in Hclock.
    rewrite !andb_true_iff, !Z.leb_le in Hclock.
    repeat split; auto; lia.
  - destruct IH as [Hv [Hm Heq]].
    destruct (cost_body_fields _ _ _ _ _ _ _ _ _ Hbody)
      as [s1 [R [C [M [D _]]]]].
    destruct (billing_rollover_fields env post_code s s1 R)
      as [C1 [_ [[Hne ->]|[He [M1 [Hnext _]]]]]].
    + rewrite C, M, D. repeat split; auto; lia.
    + destruct (next_date_is_successor _ _ Hv Hnext) as [Hv1 [O _]].
      rewrite C, M, D, C1, M1, O. repeat split; auto; lia.
Qed.

(** A session that starts at 23:59: after its first minute the head of the
    loop stands at minute 1440 of the start date, one minute billed. *)
Lemma billing_clock_before_midnight :
  let env := Sample.world (mkdate 4 11 2026) true in
  let entry := billing_start (1 # 8) (mkclock 23 59 0) (mkdate 1 6 2021) 1.1 in
  exists s,
    cost_body env 20 80 60 12.5 196 3000 entry = Ret s
    /\ b_current_minute s = 1440%Z /\ b_count s = 1%Z
    /\ (1439 * toordinal (b_date s) + b_current_minute s
        = 1439 * toordinal (mkdate 1 6 2021) + 1439 + b_count s)%Z.
Proof.
  intros env entry.
  destruct (cost_body env 20 80 60 12.5 196 3000 entry) as [s|] eqn:B;
    [|vm_compute in B; discriminate].
  exists s. split; [reflexivity|].
  split; [vm_compute in B; inversion B; reflexivity|].
  split; [vm_compute in B; inversion B; reflexivity|].
  assert (L0 : (b_count entry <= 196)%Z)
    by (vm_compute; intros X; discriminate X).
  exact (proj2 (proj2 (billing_clock env 20 80 60 12.5 196 3000 (1 # 8)
                         (mkclock 23 59 0) (mkdate 1 6 2021) 1.1 s
                         eq_refl eq_refl
                         (head_step _ _ _ _ _ _ _ _ entry s
                            (head_entry _ _ _ _ _ _ _ _) L0 B)))).
Defined.

(** ** A session inside one tariff window *)





(** ** School terms *)

Lemma in_term_windows_other_year (d : date) (windows : list (date * date))
  (y0 : Z) :
  (forall a b, In (a, b) windows -> year a = y0 /\ year b = y0) ->
  year d <> y0 ->
  in_term_windows d windows = false.
Proof.
  intros Hall Hy. induction windows as [|[a b] rest IH]; simpl; [reflexivity|].
  destruct (Hall a b (or_introl eq_refl)) as [Ya Yb].
  assert (E : date_leb a d && date_leb d b = false).
  { destruct (date_leb a d) eqn:E1; [|reflexivity].
    destruct (date_leb d b) eqn:E2; [|reflexivity].
    exfalso. clear IH Hall. date_order. }
  rewrite E. apply IH. intros a' b' Hin. apply Hall. now right.
Qed.

Lemma school_term_scan_other_year (data : list (string * list (date * date)))
  (d : date) (state : string) (y0 : Z) :
  valid_date d = true ->
  (forall st windows a b, In (st, windows) data -> In (a, b) windows ->
     year a = y0 /\ year b = y0) ->
  year d <> y0 ->
  school_term_scan data d state = Ret false.
Proof.
  intros Hv Hall Hy.
  induction data as [|[st windows] rest IH]; simpl; [reflexivity|].
  assert (IH' : school_term_scan rest d state = Ret false).
  { apply IH. intros st' w a b Hin. apply (Hall st' w a b). now right. }
  destruct (String.eqb st state); [|exact IH'].
  rewrite (datetime_valid d Hv). cbn [bind].
  rewrite (in_term_windows_other_year d windows y0); [exact IH'| |exact Hy].
  intros a b Hin. apply (Hall st windows a b); [now left|exact Hin].
Qed.

(** The term windows are compared as full dates, year included: when every
    window of the table lies in one year, a date of any other year is
    outside term, and its surcharge is 1.1 on every day of the week,
    without a look at the holiday registry. *)
Theorem surcharge_outside_term_year (env : Env) (d : date) (code : Z)
  (state : string) (y0 : Z) :
  valid_date d = true ->
  state_of_post_code code = Some state ->
  (forall st windows a b, In (st, windows) (termdates env) ->
     In (a, b) windows -> year a = y0 /\ year b = y0) ->
  year d <> y0 ->
  is_date_in_school_term env d state = Ret false
  /\ get_date_surcharge env d code = Ret 1.1.
Proof.
  intros Hv Hs Hall Hy.
  assert (Ht : is_date_in_school_term env d state = Ret false)
    by (apply (school_term_scan_other_year _ d state y0 Hv Hall Hy)).
  split; [exact Ht|].
  now rewrite (get_date_surcharge_tests env d code state false Hv Hs Ht).
Qed.

(** Saturday 5 February 2022 in Sydney, with the registry down: the same
    Saturday of term one a year earlier is inside term. *)
Lemma surcharge_outside_term_year_2022 :
  let env := Sample.world (mkdate 4 11 2026) false in
  weekday (mkdate 5 2 2022) = 5%Z
  /\ is_date_in_school_term env (mkdate 6 2 2021) "nsw" = Ret true
  /\ is_date_in_school_term env (mkdate 5 2 2022) "nsw" = Ret false
  /\ get_date_surcharge env (mkdate 5 2 2022) 2000 = Ret 1.1.
Proof.
  intros env. split; [reflexivity|]. split; [reflexivity|].
  apply (surcharge_outside_term_year env (mkdate 5 2 2022) 2000 "nsw" 2021);
    try reflexivity; [|discriminate].
  intros st windows a b Hst Hw. simpl in Hst.
  destruct Hst as [E|[E|[]]]; inversion E; subst windows; simpl in Hw;
    destruct Hw as [W|[W|[W|[W|[]]]]]; inversion W; split; reflexivity.
Defined.

(** ** The dates of the averaging mode *)

Lemma valid_in_every_year (dd mm y : Z) :
  valid_date (mkdate dd mm 2021) = true -> (1 <= y <= 9999)%Z ->
  valid_date (mkdate dd mm y) = true.
Proof.
  intros Hv Hy. apply valid_date_fields in Hv as [_ [Hm Hd]]. simpl in *.
  apply valid_date_intro; simpl; try lia.
  assert (days_in_month 2021 mm <= days_in_month y mm)%Z; [|lia].
  unfold days_in_month. destruct (mm =? 2)%Z.
  - change (is_leap 2021) with false. destruct (is_leap y); lia.
  - destruct ((mm =? 4) || (mm =? 6) || (mm =? 9) || (mm =? 11))%Z; lia.
Qed.

(** Whatever the clock says, the reference date lies in 2020 or 2021, and
    the three dates of the averaging mode, the reference date and the same
    day one and two years before, all exist: none of them is a 29 February
    of a year without one. *)
Theorem averaging_dates_exist (env : Env) (d yesterday r : date) :
  valid_date d = true ->
  sub_one_day (now env) = Ret yesterday ->
  get_reference_date env d = Ret r ->
  (year r = 2020 \/ year r = 2021)%Z
  /\ Forall (fun x => valid_date x = true) (get_preceding_dates_for_average r).
Proof.
  intros Hv Hy Hr.
  assert (H : (year r = 2020 \/ year r = 2021)%Z
              /\ valid_date (mkdate (day r) (month r) 2021) = true).
  { destruct (get_reference_date_cases env d yesterday r Hv Hy Hr)
      as [[_ [Y ->]]|[[_ ->]|[[H21 [_ ->]]|[H21 [_ ->]]]]]; simpl.
    - split; [now left|]. rewrite <- Y. now destruct d.
    - split; [now right|reflexivity].
    - split; [now left|exact H21].
    - split; [now right|exact H21]. }
  destruct H as [Hyear H21]. split; [exact Hyear|].
  unfold get_preceding_dates_for_average.
  repeat constructor.
  - destruct r as [dd mm yy]. simpl in *.
    apply valid_in_every_year; [exact H21|lia].
  - simpl. apply valid_in_every_year; [exact H21|lia].
  - simpl. apply valid_in_every_year; [exact H21|lia].
Qed.

(** On 4 November 2026 a session for 29 February 2028 is averaged over
    28 February 2021, 2020 and 2019. *)
Lemma averaging_dates_exist_leap_day :
  let env := Sample.world (mkdate 4 11 2026) true in
  get_reference_date env (mkdate 29 2 2028) = Ret (mkdate 28 2 2021)
  /\ Forall (fun x => valid_date x = true)
       [mkdate 28 2 2021; mkdate 28 2 2020; mkdate 28 2 2019].
Proof.
  intros env. split; [reflexivity|].
  exact (proj2 (averaging_dates_exist env (mkdate 29 2 2028)
                  (mkdate 3 11 2026) (mkdate 28 2 2021)
                  eq_refl eq_refl eq_refl)).
Defined.

(** ** The location lookup *)

Lemma upper_ascii_idempotent (c : ascii) :
  upper_ascii (upper_ascii c) = upper_ascii c.
Proof.
  destruct c as [[] [] [] [] [] [] [] []]; reflexivity.
Qed.

Lemma upper_idempotent (s : string) : upper (upper s) = upper s.
Proof.
  induction s as [|c s IH]; simpl; [reflexivity|].
  now rewrite upper_ascii_idempotent, IH.
Qed.

Lemma find_location_some (data : list (string * string)) (name id : string) :
  find_location data name = Some id -> In (name, id) data.
Proof.
  induction data as [|[n i] rest IH]; simpl; [discriminate|].
  destruct (String.eqb n name) eqn:E.
  - apply String.eqb_eq in E. intros H. inversion H; subst. now left.
  - intros H. right. now apply IH.
Qed.

Lemma find_location_none (data : list (string * string)) (name : string) :
  (forall id, ~ In (name, id) data) -> find_location data name = None.
Proof.
  induction data as [|[n i] rest IH]; simpl; [reflexivity|].
  intros Hno. destruct (String.eqb n name) eqn:E.
  - apply String.eqb_eq in E. subst n. exfalso. apply (Hno i). now left.
  - apply IH. intros id Hin. apply (Hno id). now right.
Qed.

(** [get_location_id] reads the suburb without regard to the case of its
    letters and compares it with the provider's names as they are: an
    answer is the id of an entry named like the suburb in capitals, and
    when the provider lists no such entry, or does not answer, the result
    is the signal value. *)
Theorem get_location_id_spec (env : Env) (post_code : Z) (suburb : string) :
  get_location_id env post_code suburb
  = get_location_id env post_code (upper suburb)
  /\ (forall id, get_location_id env post_code suburb = Some id ->
        exists data, location_api env post_code = Some data
                     /\ In (upper suburb, id) data)
  /\ (forall data, location_api env post_code = Some data ->
        (forall id, ~ In (upper suburb, id) data) ->
        get_location_id env post_code suburb = None)
  /\ (location_api env post_code = None ->
      get_location_id env post_code suburb = None).
Proof.
  unfold get_location_id. rewrite upper_idempotent.
  split; [reflexivity|].
  destruct (location_api env post_code) as [data|].
  - split; [|split].
    + intros id H. exists data. split; [reflexivity|].
      now apply find_location_some.
    + intros data' E Hno. inversion E; subst data'.
      now apply find_location_none.
    + discriminate.
  - split; [discriminate|]. split; [discriminate|reflexivity].
Qed.

(** "Melbourne", "melbourne" and "MELBOURNE" are one suburb of 3000. *)
Lemma get_location_id_spec_melbourne :
  let env := Sample.world (mkdate 4 11 2026) true in
  get_location_id env 3000 "melbourne" = Some "loc-3000"%string
  /\ exists data, location_api env 3000 = Some data
                  /\ In ("MELBOURNE"%string, "loc-3000"%string) data.
Proof.
  intros env. split; [reflexivity|].
  exact (proj1 (proj2 (get_location_id_spec env 3000 "melbourne"))
           "loc-3000"%string eq_refl).
Defined.

(** ** Daylight *)

(** For a date that exists and well-formed times with the sunrise not
    after the sunset, [get_date_daylight_hours] returns the whole minutes
    between the two, seconds dropped; this is the difference of the minute
    stamps of sunset and sunrise or one less.  With the sunset before the
    sunrise it raises [ValueError]. *)
Theorem get_date_daylight_hours_spec (d : date) (sunrise sunset : clock) :
  valid_date d = true ->
  valid_clock sunrise = true -> valid_clock sunset = true ->
  ((seconds_of sunrise <= seconds_of sunset)%Z ->
   exists dl,
     get_date_daylight_hours d sunrise sunset = Ret dl
     /\ (dl * 60 <= seconds_of sunset - seconds_of sunrise < dl * 60 + 60)%Z
     /\ (0 <= dl < 1440)%Z
     /\ (convert_time_to_minutes_passed sunset
         - convert_time_to_minutes_passed sunrise - 1 <= dl
         <= convert_time_to_minutes_passed sunset
            - convert_time_to_minutes_passed sunrise)%Z)
  /\ ((seconds_of sunset < seconds_of sunrise)%Z ->
      get_date_daylight_hours d sunrise sunset = Raise ValueError).
Proof.
  intros Hv Hr Hs. unfold get_date_daylight_hours.
  rewrite (datetime_valid d Hv), Hr, Hs. cbn [bind andb].
  unfold valid_clock in Hr, Hs.
  rewrite !andb_true_iff, !Z.leb_le in Hr, Hs.
  unfold convert_time_to_minutes_passed, seconds_of in *.
  split.
  - intros Hle.
    replace (_ <? 0)%Z with false by (symmetry; apply Z.ltb_ge; lia).
    eexists. split; [reflexivity|].
    repeat split; Z.div_mod_to_equations; lia.
  - intros Hlt.
    replace (_ <? 0)%Z with true by (symmetry; apply Z.ltb_lt; lia).
    reflexivity.
Qed.

(** The winter day of the sample: 07:20 to 17:10, 590 minutes. *)
Lemma get_date_daylight_hours_spec_winter :
  get_date_daylight_hours (mkdate 1 6 2021) (mkclock 7 20 0) (mkclock 17 10 0)
  = Ret 590%Z.
Proof.
  destruct (proj1 (get_date_daylight_hours_spec (mkdate 1 6 2021)
                     (mkclock 7 20 0) (mkclock 17 10 0)
                     eq_refl eq_refl eq_refl)
              ltac:(vm_compute; intros X; discriminate X))
    as [dl [E _]].
  rewrite E. vm_compute in E. symmetry. exact E.
Defined.

(** ** The hourly cloud cover *)

(** With 24 hourly entries, the access [cc[hour]] of a window close-out
    succeeds exactly when the windows closed so far, counted as an hour
    each, and [time] stay below a day, [c * 60 + time < 1440]; beyond that
    it raises [IndexError]. *)
Theorem cloud_cover_access (charging_hours_spent_in_sunlight time : Z)
  (cc : list Q) :
  List.length cc = 24%nat ->
  (0 <= charging_hours_spent_in_sunlight * 60 + time)%Z ->
  ((charging_hours_spent_in_sunlight * 60 + time < 1440)%Z ->
   exists current_cc,
     py_index cc (hour_index charging_hours_spent_in_sunlight time)
     = Ret current_cc
     /\ nth_error cc
          (Z.to_nat ((charging_hours_spent_in_sunlight * 60 + time) / 60))
        = Some current_cc)
  /\ ((1440 <= charging_hours_spent_in_sunlight * 60 + time)%Z ->
      py_index cc (hour_index charging_hours_spent_in_sunlight time)
      = Raise IndexError).
Proof.
  intros Hlen H0. split.
  - intros Hlt. rewrite hour_index_value.
    set (h := ((charging_hours_spent_in_sunlight * 60 + time) / 60)%Z).
    assert (Hh : (0 <= h < 24)%Z)
      by (unfold h; Z.div_mod_to_equations; lia).
    unfold py_index. rewrite Hlen.
    replace (h <? 0)%Z with false by (symmetry; apply Z.ltb_ge; lia).
    replace (0 <=? h)%Z with true by (symmetry; apply Z.leb_le; lia).
    replace (h <? Z.of_nat 24)%Z with true
      by (symmetry; apply Z.ltb_lt; simpl; lia).
    cbn [andb].
    destruct (nth_error cc (Z.to_nat h)) as [x|] eqn:E; [eauto|].
    apply nth_error_None in E. lia.
  - intros Hge. now apply hour_index_overflow.
Qed.

(** The tenth window of the first day of the long session: index 18. *)
Lemma cloud_cover_access_tenth_window :
  py_index (map w_cloudCoverPct (s_hourlyWeatherHistory Sample.winter_day))
    (hour_index 10 480) = Ret 25.
Proof.
  destruct (proj1 (cloud_cover_access 10 480
                     (map w_cloudCoverPct
                        (s_hourlyWeatherHistory Sample.winter_day))
                     eq_refl ltac:(vm_compute; intros X; discriminate X))
              eq_refl) as [x [E _]].
  rewrite E. vm_compute in E. symmetry. exact E.
Defined.

Lemma insert_by_hour_perm (x : hourly) (l : list hourly) :
  Permutation (x :: l) (insert_by_hour x l).
Proof.
  induction l as [|y rest IH]; simpl; [apply Permutation_refl|].
  destruct (w_hour x <=? w_hour y)%Z; [apply Permutation_refl|].
  apply perm_trans with (y :: x :: rest); [apply perm_swap|].
  now apply perm_skip.
Qed.

Lemma sort_by_hour_perm (l : list hourly) : Permutation l (sort_by_hour l).
Proof.
  induction l as [|x rest IH]; simpl; [apply perm_nil|].
  apply perm_trans with (x :: sort_by_hour rest); [now apply perm_skip|].
  apply insert_by_hour_perm.
Qed.

Lemma insert_by_hour_sorted (x : hourly) (l : list hourly) :
  StronglySorted (fun a b => (w_hour a <= w_hour b)%Z) l ->
  StronglySorted (fun a b => (w_hour a <= w_hour b)%Z) (insert_by_hour x l).
Proof.
  intros Hs. induction Hs as [|y rest Hrest IH Hall]; simpl.
  - repeat constructor.
  - destruct (w_hour x <=? w_hour y)%Z eqn:E.
    + apply Z.leb_le in E. constructor; [now constructor|].
      constructor; [exact E|].
      eapply Forall_impl; [|exact Hall]. intros a Ha. simpl in Ha. lia.
    + apply Z.leb_gt in E. constructor; [exact IH|].
      apply (Permutation_Forall (insert_by_hour_perm x rest)).
      constructor; [lia|exact Hall].
Qed.

Lemma sort_by_hour_sorted (l : list hourly) :
  StronglySorted (fun a b => (w_hour a <= w_hour b)%Z) (sort_by_hour l).
Proof.
  induction l as [|x rest IH]; simpl; [constructor|].
  now apply insert_by_hour_sorted.
Qed.

(** Two lists of integers in ascending order with the same elements are
    the same list. *)
Lemma sorted_perm_eq (l1 l2 : list Z) :
  StronglySorted Z.le l1 -> StronglySorted Z.le l2 -> Permutation l1 l2 ->
  l1 = l2.
Proof.
  revert l2. induction l1 as [|a l1 IH]; intros l2 H1 H2 Hp.
  - apply Permutation_nil in Hp. now subst.
  - destruct l2 as [|b l2];
      [apply Permutation_sym, Permutation_nil in Hp; discriminate|].
    inversion H1 as [|? ? S1 A1]; subst. inversion H2 as [|? ? S2 A2]; subst.
    assert (a = b).
    { assert (Ia : In a (b :: l2))
        by (apply (Permutation_in _ Hp); now left).
      assert (Ib : In b (a :: l1))
        by (apply (Permutation_in _ (Permutation_sym Hp)); now left).
      rewrite Forall_forall in A1, A2.
      destruct Ia as [->|Ia]; [reflexivity|].
      destruct Ib as [->|Ib]; [reflexivity|].
      specialize (A1 _ Ib). specialize (A2 _ Ia). lia. }
    subst b. f_equal. apply IH; try assumption.
    now apply Permutation_cons_inv in Hp.
Qed.

Lemma sorted_map_hour (l : list hourly) :
  StronglySorted (fun a b => (w_hour a <= w_hour b)%Z) l ->
  StronglySorted Z.le (map w_hour l).
Proof.
  intros Hs. induction Hs as [|y rest Hrest IH Hall]; simpl; constructor.
  - exact IH.
  - rewrite Forall_forall in *. intros h Hin.
    apply in_map_iff in Hin as [x [<- Hx]]. now apply Hall.
Qed.

Lemma hours_ascending : StronglySorted Z.le (map Z.of_nat (seq 0 24)).
Proof.
  simpl. repeat (constructor; [|repeat (constructor; [lia|]); constructor]).
  constructor.
Qed.

Lemma nth_error_hours (a n k : nat) (h : Z) :
  nth_error (map Z.of_nat (seq a n)) k = Some h -> h = Z.of_nat (a + k).
Proof.
  revert a k. induction n as [|n IH]; intros a k; simpl.
  - destruct k; discriminate.
  - destruct k as [|k]; simpl.
    + intros E. inversion E. f_equal. lia.
    + intros E. apply IH in E. rewrite E. f_equal. lia.
Qed.

(** When the weather history of a day lists each hour from 0 to 23 once,
    in whatever order, the cloud-cover list built from it has 24 entries
    and its entry [h] is the cloud cover of hour [h]. *)
Theorem load_daylight_cloud_cover (env : Env) (location_id : string)
  (d : date) (solar_data : solar) (dy : daylight) :
  weather_api env location_id d = Some solar_data ->
  Permutation (map w_hour (s_hourlyWeatherHistory solar_data))
    (map Z.of_nat (seq 0 24)) ->
  load_daylight env location_id d = Ret (Some dy) ->
  List.length (dy_cc dy) = 24%nat
  /\ forall x, In x (s_hourlyWeatherHistory solar_data) ->
       nth_error (dy_cc dy) (Z.to_nat (w_hour x)) = Some (w_cloudCoverPct x).
Proof.
  intros Hapi Hperm. unfold load_daylight, get_date_solar_data.
  rewrite Hapi.
  destruct (get_date_daylight_hours d (s_sunrise solar_data)
              (s_sunset solar_data)) as [dl|]; [|discriminate].
  cbn [bind]. intros E. inversion E; subst dy. clear E. cbn [dy_cc].
  set (history := s_hourlyWeatherHistory solar_data) in *.
  pose proof (sort_by_hour_perm history) as Hp.
  assert (Hhours : map w_hour (sort_by_hour history)
                   = map Z.of_nat (seq 0 24)).
  { apply sorted_perm_eq.
    - apply sorted_map_hour, sort_by_hour_sorted.
    - apply hours_ascending.
    - apply perm_trans with (map w_hour history); [|exact Hperm].
      apply Permutation_map. now apply Permutation_sym. }
  split.
  - rewrite length_map.
    rewrite <- (length_map w_hour), Hhours, length_map. apply length_seq.
  - intros x Hx.
    assert (Hin : In x (sort_by_hour history))
      by (apply (Permutation_in _ Hp); exact Hx).
    apply In_nth_error in Hin as [k Hk].
    pose proof (map_nth_error w_hour k _ Hk) as Hh.
    rewrite Hhours in Hh. apply nth_error_hours in Hh.
    rewrite Hh. simpl. rewrite Nat2Z.id.
    exact (map_nth_error w_cloudCoverPct k _ Hk).
Qed.

(** The winter day of the sample in Melbourne. *)
Lemma load_daylight_cloud_cover_winter :
  let env := Sample.world (mkdate 4 11 2026) true in
  exists dy,
    load_daylight env "loc-3000" (mkdate 1 6 2021) = Ret (Some dy)
    /\ List.length (dy_cc dy) = 24%nat
    /\ nth_error (dy_cc dy) 13 = Some 25.
Proof.
  intros env.
  destruct (load_daylight env "loc-3000" (mkdate 1 6 2021))
    as [[dy|]|] eqn:L; try (vm_compute in L; discriminate).
  exists dy. split; [reflexivity|].
  destruct (load_daylight_cloud_cover env "loc-3000" (mkdate 1 6 2021)
              Sample.winter_day dy eq_refl (Permutation_refl _) L)
    as [Hlen Hnth].
  split; [exact Hlen|].
  apply (Hnth (mkhourly 13 25)). simpl. tauto.
Defined.

(** ** A session in the dark *)

Lemma savings_loop_dark (env : Env) (power cost : Q)
  (time_required post_code : Z) (location_id : string) (start : Z)
  (fuel : nat) (s : savings_state) :
  (start + time_required <= 1440)%Z ->
  (dy_sunset_in_minutes (v_day s) < start
   \/ (start + time_required <= dy_sunrise_in_minutes (v_day s)
       /\ dy_sunrise_in_minutes (v_day s) <= dy_sunset_in_minutes (v_day s)))%Z ->
  v_current_minute s = (start + v_count s)%Z ->
  (0 <= v_count s)%Z ->
  exists s',
    savings_loop env power cost time_required post_code location_id fuel s
    = Ret (Some s')
    /\ v_savings s' = v_savings s.
Proof.
  intros Hday Hdark. revert s Hdark.
  induction fuel as [|fuel IH]; intros s Hdark Hm Hc; simpl; [eauto|].
  destruct (v_count s <? time_required)%Z eqn:C; [|eauto].
  apply Z.ltb_lt in C.
  unfold savings_body, savings_rollover.
  replace (v_current_minute s =? 1440)%Z with false
    by (symmetry; apply Z.eqb_neq; lia).
  cbn [bind].
  assert (Hin : in_daylight s = false).
  { unfold in_daylight. apply andb_false_iff.
    destruct Hdark as [H|[H _]]; [right|left]; apply Z.leb_gt; lia. }
  assert (Hcl : closes_window time_required s = false).
  { unfold closes_window. rewrite Hin. cbn [andb orb].
    rewrite andb_false_r, orb_false_r. apply Z.eqb_neq.
    destruct Hdark as [H|[H H']]; lia. }
  rewrite Hin, Hcl. cbn [bind].
  match goal with
  | |- exists s', savings_loop _ _ _ _ _ _ _ ?next = _ /\ _ =>
      destruct (IH next) as [s' [L S]]; cbn; try lia; try assumption
  end.
  exists s'. split; [exact L|exact S].
Qed.

(** A session that lies, on its start date, wholly after the sunset or
    wholly before the sunrise closes no window: the simulation of the date
    returns savings of exactly 0 and never reads the cloud cover. *)
Theorem simulate_date_in_the_dark (env : Env)
  (initial_state final_state capacity : Z) (power cost : Q)
  (start_time : clock) (post_code : Z) (location_id : string) (d : date)
  (time date_surcharge : Q) (dy : daylight) :
  let start := get_minute_from_start_time start_time in
  time_calculation (inject_Z initial_state) (inject_Z final_state)
    (inject_Z capacity) power = Ret time ->
  get_date_surcharge env d post_code = Ret date_surcharge ->
  load_daylight env location_id d = Ret (Some dy) ->
  (start + py_int time <= 1440)%Z ->
  (dy_sunset_in_minutes dy < start
   \/ (start + py_int time <= dy_sunrise_in_minutes dy
       /\ dy_sunrise_in_minutes dy <= dy_sunset_in_minutes dy))%Z ->
  simulate_date env initial_state final_state capacity power cost start_time
    post_code location_id d = Ret (Some 0).
Proof.
  intros start Htime Hsf Hload Hday Hdark.
  unfold simulate_date. rewrite Htime. cbn [bind]. rewrite Hsf. cbn [bind].
  rewrite Hload. cbn [bind]. fold start.
  destruct (savings_loop_dark env power cost (py_int time) post_code
              location_id start (Z.to_nat (py_int time))
              (mksavings 0 0 0 0 start start date_surcharge dy))
    as [s' [L S]]; cbn; try lia; try assumption.
  rewrite L. cbn [bind]. cbn in S. now rewrite S.
Qed.

(** Ten percent of a 10 kWh battery on the 22 kW charger from 21:00, after
    the sunset of 17:10. *)
Lemma simulate_date_in_the_dark_evening :
  simulate_date (Sample.world (mkdate 4 11 2026) true) 20 30 10 22 15
    (mkclock 21 0 0) 3000 "loc-3000" (mkdate 1 6 2021) = Ret (Some 0).
Proof.
  destruct (load_daylight (Sample.world (mkdate 4 11 2026) true) "loc-3000"
              (mkdate 1 6 2021)) as [[dy|]|] eqn:L;
    try (vm_compute in L; discriminate).
  assert (Hs : dy_sunset_in_minutes dy = 1030%Z)
    by (vm_compute in L; inversion L; reflexivity).
  apply (simulate_date_in_the_dark (Sample.world (mkdate 4 11 2026) true)
           20 30 10 22 15 (mkclock 21 0 0) 3000 "loc-3000" (mkdate 1 6 2021)
           (charging_minutes 20 30 10 22) 1.1 dy).
  - reflexivity.
  - reflexivity.
  - exact L.
  - vm_compute. intros X. discriminate X.
  - left. rewrite Hs. reflexivity.
Defined.

(** ** The duration text *)





(** ** The charger tiers *)




(** * Properties of the form validators *)

Ltac settle_comparisons :=
  repeat match goal with
  | |- context [(?a <=? ?b)%Z] =>
      first [ replace (a <=? b)%Z with true
                by (symmetry; apply Z.leb_le; lia)
            | replace (a <=? b)%Z with false
                by (symmetry; apply Z.leb_gt; lia) ]
  | |- context [(?a <? ?b)%Z] =>
      first [ replace (a <? b)%Z with true
                by (symmetry; apply Z.ltb_lt; lia)
            | replace (a <? b)%Z with false
                by (symmetry; apply Z.ltb_ge; lia) ]
  end.

Lemma post_code_ranges (p : Z) :
  (p < 800 \/ 800 <= p <= 899 \/ 900 <= p <= 1999 \/ 2000 <= p <= 2599
   \/ 2600 <= p <= 2618 \/ 2619 <= p <= 2899 \/ 2900 <= p <= 2920
   \/ 2921 <= p <= 2999 \/ 3000 <= p <= 3999 \/ 4000 <= p <= 4999
   \/ 5000 <= p <= 5799 \/ 5800 <= p <= 5999 \/ 6000 <= p <= 6797
   \/ 6798 <= p <= 6999 \/ 7000 <= p <= 7799 \/ 7800 <= p)%Z.
Proof. lia. Qed.

(** Every postcode the form accepts lies in a jurisdiction range of the
    calculator, so a validated postcode never meets the signal value of
    [get_date_surcharge]; the only postcodes with a jurisdiction that the
    form turns away are 2921 to 2999, which the calculator counts as New
    South Wales. *)
Theorem validate_PostCode_jurisdiction (int : string -> option Z)
  (text : string) (p : Z) :
  int text = Some p ->
  (Form.validate_PostCode int (Some text) = Form.Passed ->
   state_of_post_code p <> None)
  /\ (state_of_post_code p <> None ->
      Form.validate_PostCode int (Some text) = Form.Passed
      \/ (2921 <= p <= 2999)%Z)
  /\ ((2921 <= p <= 2999)%Z ->
      Form.validate_PostCode int (Some text)
      = Form.Failed (Form.Uncaught ValueError)
      /\ state_of_post_code p = Some "nsw"%string).
Proof.
  intros Hint. unfold Form.validate_PostCode, state_of_post_code.
  rewrite Hint.
  destruct (post_code_ranges p)
    as [H|[H|[H|[H|[H|[H|[H|[H|[H|[H|[H|[H|[H|[H|[H|H]]]]]]]]]]]]]]];
    settle_comparisons; cbn [andb orb];
    (split; [|split]);
    try (intros _; discriminate); try discriminate;
    try (intros _; left; reflexivity);
    try (intros _; right; lia);
    try (intros X; exfalso; apply X; reflexivity);
    try (intros X; exfalso; lia);
    try (intros _; split; reflexivity).
Qed.

(** "2000" passes and is New South Wales; "2950" is turned away. *)
Lemma validate_PostCode_jurisdiction_example :
  state_of_post_code 2000 <> None
  /\ Form.validate_PostCode SampleText.int (Some "2950"%string)
     = Form.Failed (Form.Uncaught ValueError)
  /\ state_of_post_code 2950 = Some "nsw"%string.
Proof.
  split.
  - exact (proj1 (validate_PostCode_jurisdiction SampleText.int "2000" 2000
                    eq_refl) eq_refl).
  - exact (proj2 (proj2 (validate_PostCode_jurisdiction SampleText.int "2950"
                           2950 eq_refl))
             ltac:(lia)).
Defined.

(** When the charge, capacity and configuration fields pass, they read as
    an initial charge in 0..99, a final charge in 1..100, a positive
    capacity and a configuration in 1..8.  The final charge is compared
    with the initial one only if the initial text is all digits: then it
    is strictly above it; for an initial text that [int] reads but that is
    not all digits, such as a signed number, every final charge in 1..100
    passes, also one below the initial charge. *)
Theorem validated_session (int : string -> option Z)
  (isdigit : string -> bool) (initial final capacity configuration : string) :
  (Form.validate_InitialCharge int (Some initial) = Form.Passed ->
   Form.validate_FinalCharge int isdigit (Some initial) (Some final)
   = Form.Passed ->
   Form.validate_BatteryPackCapacity int (Some capacity) = Form.Passed ->
   Form.validate_ChargerConfiguration int (Some configuration) = Form.Passed ->
   exists i f c k,
     int initial = Some i /\ int final = Some f /\ int capacity = Some c
     /\ int configuration = Some k
     /\ (0 <= i <= 99)%Z /\ (1 <= f <= 100)%Z /\ (0 < c)%Z /\ (1 <= k <= 8)%Z
     /\ (isdigit initial = true -> (i < f)%Z))
  /\ (forall f, isdigit initial = false -> int final = Some f ->
        (1 <= f <= 100)%Z ->
        Form.validate_FinalCharge int isdigit (Some initial) (Some final)
        = Form.Passed).
Proof.
  split.
  - unfold Form.validate_InitialCharge, Form.validate_FinalCharge,
      Form.validate_BatteryPackCapacity, Form.validate_ChargerConfiguration.
    destruct (int initial) as [i|]; [|discriminate].
    destruct (int final) as [f|]; [|discriminate].
    destruct (int capacity) as [c|]; [|discriminate].
    destruct (int configuration) as [k|]; [|discriminate].
    destruct (Z.ltb_spec i 0); [discriminate|].
    destruct (Z.leb_spec 100 i); [discriminate|]. intros _.
    destruct (Z.leb_spec f 0); [discriminate|].
    destruct (Z.ltb_spec 100 f); [discriminate|].
    intros Hfinal.
    destruct (Z.leb_spec c 0); [discriminate|]. intros _.
    destruct (Z.ltb_spec 8 k); [discriminate|].
    destruct (Z.ltb_spec k 1); [discriminate|]. intros _.
    exists i, f, c, k. repeat split; try lia.
    intros Hd. rewrite Hd in Hfinal.
    destruct (Z.leb_spec f i); [discriminate|lia].
  - intros f Hd Hf Hr. unfold Form.validate_FinalCharge.
    rewrite Hf, Hd. settle_comparisons. reflexivity.
Qed.

(** "+50" reads as 50 and is not all digits: a final charge of "20"
    passes. *)
Lemma validated_session_signed_initial :
  Form.validate_InitialCharge SampleText.int (Some "+50"%string)
  = Form.Passed
  /\ Form.validate_FinalCharge SampleText.int SampleText.isdigit
       (Some "+50"%string) (Some "20"%string) = Form.Passed.
Proof.
  split; [reflexivity|].
  exact (proj2 (validated_session SampleText.int SampleText.isdigit "+50"
                  "20" "60" "4") 20%Z eq_refl eq_refl ltac:(lia)).
Defined.

Lemma every_name_is_passed (items : list (string * string)) (name : string) :
  Form.every_name_is items name = Form.Passed
  <-> forall n id, In (n, id) items -> n = name.
Proof.
  induction items as [|[n0 id0] rest IH]; simpl.
  - split; [intros _ n id []|reflexivity].
  - destruct (String.eqb_spec n0 name) as [E|N]; simpl.
    + rewrite IH. split.
      * intros H n id [X|X]; [inversion X; subst; reflexivity|eauto].
      * intros H n id X. apply (H n id). now right.
    + split; [discriminate|].
      intros H. exfalso. apply N. apply (H n0 id0). now left.
Qed.

(** On a list of locations the suburb passes exactly when the list is not
    empty and every location of the postcode bears the suburb's name in
    capitals: a postcode with two differently named suburbs accepts
    neither.  A suburb that passes resolves in [get_location_id] to the id
    of the first location.  On an error object whose first key is
    "statusCode" every suburb passes. *)
Theorem validate_Suburb_spec (env : Env) (post_code : Z) (suburb : string)
  (items : list (string * string)) (keys : list string) :
  (Form.validate_Suburb (Some suburb) (Form.JArray items) = Form.Passed
   <-> items <> [] /\ forall n id, In (n, id) items -> n = upper suburb)
  /\ (Form.validate_Suburb (Some suburb) (Form.JArray items) = Form.Passed ->
      location_api env post_code = Some items ->
      exists id rest,
        items = (upper suburb, id) :: rest
        /\ get_location_id env post_code suburb = Some id)
  /\ Form.validate_Suburb (Some suburb)
       (Form.JObject ("statusCode"%string :: keys)) = Form.Passed.
Proof.
  assert (A : Form.validate_Suburb (Some suburb) (Form.JArray items)
              = Form.Passed
              <-> items <> [] /\ forall n id, In (n, id) items ->
                                  n = upper suburb).
  { unfold Form.validate_Suburb. destruct items as [|item rest].
    - split; [discriminate|]. intros [H _]. now contradiction H.
    - rewrite every_name_is_passed. split.
      + intros H. split; [discriminate|exact H].
      + intros [_ H]. exact H. }
  split; [exact A|]. split; [|reflexivity].
  intros Hpass Hapi. apply A in Hpass as [Hne Hall].
  destruct items as [|[n id] rest]; [now contradiction Hne|].
  assert (n = upper suburb) by (apply (Hall n id); now left). subst n.
  exists id, rest. split; [reflexivity|].
  unfold get_location_id. rewrite Hapi. simpl.
  now rewrite String.eqb_refl.
Qed.

(** Postcode 3000 with the single location MELBOURNE; the same postcode
    with a second location turns "Melbourne" away. *)
Lemma validate_Suburb_spec_melbourne :
  let env := Sample.world (mkdate 4 11 2026) true in
  (exists id rest,
     [("MELBOURNE"%string, "loc-3000"%string)]
     = (upper "Melbourne", id) :: rest
     /\ get_location_id env 3000 "Melbourne" = Some id)
  /\ Form.validate_Suburb (Some "Melbourne"%string)
       (Form.JArray [("MELBOURNE"%string, "loc-3000"%string);
                     ("CARLTON"%string, "loc-3053"%string)])
     <> Form.Passed.
Proof.
  intros env. split.
  - exact (proj1 (proj2 (validate_Suburb_spec env 3000 "Melbourne"
                           [("MELBOURNE"%string, "loc-3000"%string)] []))
             eq_refl eq_refl).
  - discriminate.
Defined.

(** A start date passes exactly from 1 July 2008 to 31 December 2999. *)
Theorem validate_StartDate_range (d : date) :
  valid_date d = true ->
  (Form.validate_StartDate (Some d) = Form.Passed
   <-> date_leb (mkdate 1 7 2008) d = true
       /\ date_leb d (mkdate 31 12 2999) = true).
Proof.
  intros Hv. destruct (valid_date_fields d Hv) as [Hy [Hm Hd]].
  pose proof (days_in_month_bounds (year d) (month d)) as Hb.
  unfold Form.validate_StartDate. rewrite (datetime_valid d Hv).
  destruct ((year d =? 2008)%Z && (month d <? 7)%Z) eqn:E1.
  { split; [discriminate|]. intros [A B]. exfalso.
    apply andb_true_iff in E1 as [E1 E2].
    apply Z.eqb_eq in E1. apply Z.ltb_lt in E2. clear B. date_order. }
  destruct (year d <? 2008)%Z eqn:E2.
  { split; [discriminate|]. intros [A B]. exfalso.
    apply Z.ltb_lt in E2. clear B E1. date_order. }
  destruct (2999 <? year d)%Z eqn:E3.
  { split; [discriminate|]. intros [A B]. exfalso.
    apply Z.ltb_lt in E3. clear A E1 E2. date_order. }
  split; [|reflexivity]. intros _.
  apply Z.ltb_ge in E2, E3.
  apply andb_false_iff in E1.
  split; date_order.
Qed.

(** 30 June 2008 is a day too early. *)
Lemma validate_StartDate_range_example :
  Form.validate_StartDate (Some (mkdate 30 6 2008)) <> Form.Passed
  /\ Form.validate_StartDate (Some (mkdate 1 7 2008)) = Form.Passed.
Proof.
  split.
  - intros H.
    apply (proj1 (validate_StartDate_range (mkdate 30 6 2008) eq_refl)) in H.
    destruct H as [H _]. discriminate H.
  - apply (proj2 (validate_StartDate_range (mkdate 1 7 2008) eq_refl)).
    split; reflexivity.
Defined.

(** * Properties of the savings method without cloud cover *)





(** * The clock of the savings loop *)

Lemma savings_loop_step (env : Env) (power cost : Q)
  (time_required post_code : Z) (location_id : string) (fuel : nat)
  (s : savings_state) :
  savings_loop env power cost time_required post_code location_id (S fuel) s
  = if (v_count s <? time_required)%Z
    then
      r <- savings_body env power cost time_required post_code location_id
             s ;;
      match r with
      | None => Ret None
      | Some s' =>
          savings_loop env power cost time_required post_code location_id
            fuel s'
      end
    else Ret (Some s).
Proof. reflexivity. Qed.

Lemma load_daylight_date (env : Env) (location_id : string) (d : date)
  (dy : daylight) :
  load_daylight env location_id d = Ret (Some dy) -> dy_date dy = d.
Proof.
  unfold load_daylight.
  destruct (get_date_solar_data env location_id d); [|discriminate].
  destruct (get_date_daylight_hours _ _ _); [|discriminate].
  cbn [bind]. intros E. now inversion E.
Qed.

Lemma savings_body_clock (env : Env) (power cost : Q)
  (time_required post_code : Z) (location_id : string) (start total : Z)
  (s s' : savings_state) :
  valid_date (dy_date (v_day s)) = true ->
  (0 <= v_current_minute s <= 1440)%Z ->
  (1439 * toordinal (dy_date (v_day s)) + v_current_minute s
   = total + v_count s)%Z ->
  (0 <= v_charging_hours_spent_in_sunlight s <= v_count s)%Z ->
  (v_time s = start \/ v_time s = dy_sunrise_in_minutes (v_day s)) ->
  savings_body env power cost time_required post_code location_id s
  = Ret (Some s') ->
  valid_date (dy_date (v_day s')) = true
  /\ (0 <= v_current_minute s' <= 1440)%Z
  /\ (1439 * toordinal (dy_date (v_day s')) + v_current_minute s'
      = total + v_count s')%Z
  /\ (0 <= v_charging_hours_spent_in_sunlight s' <= v_count s')%Z
  /\ (v_time s' = start \/ v_time s' = dy_sunrise_in_minutes (v_day s')).
Proof.
  intros Hv Hm Heq Hc Ht. unfold savings_body.
  destruct (savings_rollover env post_code location_id s) as [[s1|]|] eqn:R;
    try discriminate.
  cbn [bind].
  assert (H1 : valid_date (dy_date (v_day s1)) = true
               /\ (0 <= v_current_minute s1 < 1440)%Z
               /\ (1439 * toordinal (dy_date (v_day s1)) + v_current_minute s1
                   = total + v_count s1)%Z
               /\ (0 <= v_charging_hours_spent_in_sunlight s1 <= v_count s1)%Z
               /\ (v_time s1 = start
                   \/ v_time s1 = dy_sunrise_in_minutes (v_day s1))).
  { revert R. unfold savings_rollover.
    destruct (v_current_minute s =? 1440)%Z eqn:E.
    - apply Z.eqb_eq in E.
      destruct (get_next_date (dy_date (v_day s))) as [d|] eqn:N;
        [|discriminate].
      cbn [bind].
      destruct (get_date_surcharge env d post_code); [|discriminate].
      cbn [bind].
      destruct (load_daylight env location_id d) as [[dy|]|] eqn:L;
        try discriminate.
      cbn [bind]. intros X. inversion X; subst s1.
      cbn [v_charging_hours_spent_in_sunlight v_count v_savings v_daylight_minutes
             v_time v_current_minute v_date_surcharge v_day].
      rewrite (load_daylight_date _ _ _ _ L).
      destruct (next_date_is_successor _ _ Hv N) as [Hv1 [O _]].
      rewrite O. repeat split; auto; lia.
    - apply Z.eqb_neq in E. intros X. inversion X; subst s1.
      repeat split; auto; lia. }
  destruct H1 as [Hv1 [Hm1 [Heq1 [Hc1 Ht1]]]].
  destruct (closes_window time_required s1).
  - unfold close_window.
    destruct (py_index _ _); [|discriminate]. cbn [bind].
    destruct (py_div _ _); [|discriminate]. cbn [bind].
    intros X. inversion X; subst s'.
    cbn [v_charging_hours_spent_in_sunlight v_count v_savings v_daylight_minutes
             v_time v_current_minute v_date_surcharge v_day].
    repeat split; auto; lia.
  - cbn [bind]. intros X. inversion X; subst s'.
    cbn [v_charging_hours_spent_in_sunlight v_count v_savings v_daylight_minutes
             v_time v_current_minute v_date_surcharge v_day].
    repeat split; auto; lia.
Qed.

(** At the end of the savings loop of one date, as at each of its heads,
    the date exists, the minute lies in 0..1440, and minute and date
    account for the minutes simulated with 1439 minutes to the day, as in
    the billing loop; the count of closed windows is at most the count of
    minutes; and [time] is the start minute or the sunrise minute of the
    current day. *)
Theorem savings_clock (env : Env) (power cost : Q)
  (time_required post_code : Z) (location_id : string) (start : Z)
  (date_surcharge : Q) (dy : daylight) (fuel : nat) (s' : savings_state) :
  valid_date (dy_date dy) = true ->
  (0 <= start < 1440)%Z ->
  savings_loop env power cost time_required post_code location_id fuel
    (mksavings 0 0 0 0 start start date_surcharge dy) = Ret (Some s') ->
  valid_date (dy_date (v_day s')) = true
  /\ (0 <= v_current_minute s' <= 1440)%Z
  /\ (1439 * toordinal (dy_date (v_day s')) + v_current_minute s'
      = 1439 * toordinal (dy_date dy) + start + v_count s')%Z
  /\ (0 <= v_charging_hours_spent_in_sunlight s' <= v_count s')%Z
  /\ (v_time s' = start \/ v_time s' = dy_sunrise_in_minutes (v_day s')).
Proof.
  intros Hv Hs.
  set (total := (1439 * toordinal (dy_date dy) + start)%Z).
  assert (G : forall n s,
            valid_date (dy_date (v_day s)) = true ->
            (0 <= v_current_minute s <= 1440)%Z ->
            (1439 * toordinal (dy_date (v_day s)) + v_current_minute s
             = total + v_count s)%Z ->
            (0 <= v_charging_hours_spent_in_sunlight s <= v_count s)%Z ->
            (v_time s = start \/ v_time s = dy_sunrise_in_minutes (v_day s)) ->
            savings_loop env power cost time_required post_code location_id
              n s = Ret (Some s') ->
            valid_date (dy_date (v_day s')) = true
            /\ (0 <= v_current_minute s' <= 1440)%Z
            /\ (1439 * toordinal (dy_date (v_day s')) + v_current_minute s'
                = total + v_count s')%Z
            /\ (0 <= v_charging_hours_spent_in_sunlight s' <= v_count s')%Z
            /\ (v_time s' = start
                \/ v_time s' = dy_sunrise_in_minutes (v_day s'))).
  { induction n as [|n IH]; intros s A B C D E.
    - simpl. intros X. inversion X; subst s'. auto.
    - rewrite savings_loop_step.
      destruct (v_count s <? time_required)%Z.
      + destruct (savings_body env power cost time_required post_code
                    location_id s) as [[s2|]|] eqn:Bd; try discriminate.
        cbn [bind].
        destruct (savings_body_clock env power cost time_required post_code
                    location_id start total s s2 A B C D E Bd)
          as [A2 [B2 [C2 [D2 E2]]]].
        now apply IH.
      + intros X. inversion X; subst s'. auto. }
  intros L.
  exact (G fuel (mksavings 0 0 0 0 start start date_surcharge dy) Hv
           ltac:(simpl; lia) ltac:(unfold total; simpl; lia)
           ltac:(simpl; lia) (or_introl eq_refl) L).
Qed.

(** Three minutes from 23:58 on 1 June 2021: the loop ends on 2 June at
    minute 2, [time] being the sunrise minute 440 of the new day. *)
Lemma savings_clock_over_midnight :
  let env := Sample.world (mkdate 4 11 2026) true in
  let dy := mkdaylight (mkdate 1 6 2021) 440 1030 5.2 590 [] in
  exists s',
    savings_loop env 22 15 3 3000 "loc-3000" 3
      (mksavings 0 0 0 0 1438 1438 1.1 dy) = Ret (Some s')
    /\ dy_date (v_day s') = mkdate 2 6 2021
    /\ v_current_minute s' = 2%Z /\ v_count s' = 3%Z /\ v_time s' = 440%Z
    /\ (1439 * toordinal (dy_date (v_day s')) + v_current_minute s'
        = 1439 * toordinal (mkdate 1 6 2021) + 1438 + v_count s')%Z.
Proof.
  intros env dy.
  destruct (savings_loop env 22 15 3 3000 "loc-3000" 3
              (mksavings 0 0 0 0 1438 1438 1.1 dy)) as [[s'|]|] eqn:L;
    try (vm_compute in L; discriminate).
  exists s'. split; [reflexivity|].
  destruct (savings_clock env 22 15 3 3000 "loc-3000" 1438 1.1 dy 3 s'
              eq_refl ltac:(lia) L) as [_ [_ [E _]]].
  vm_compute in L. inversion L; subst s'. clear L.
  split; [reflexivity|]. split; [reflexivity|]. split; [reflexivity|].
  split; [reflexivity|]. exact E.
Defined.

(** * Further properties of the lookups and of the facade *)



Lemma in_term_windows_iff (d : date) (windows : list (date * date)) :
  in_term_windows d windows = true
  <-> exists a b, In (a, b) windows
                  /\ date_leb a d = true /\ date_leb d b = true.
Proof.
  induction windows as [|[a b] rest IH]; simpl.
  - split; [discriminate|]. intros [a [b [[] _]]].
  - destruct (date_leb a d && date_leb d b) eqn:E.
    + split; [|reflexivity]. intros _. apply andb_true_iff in E.
      exists a, b. split; [now left|exact E].
    + rewrite IH. split.
      * intros [a' [b' [I H]]]. exists a', b'. split; [now right|exact H].
      * intros [a' [b' [[X|I] [H1 H2]]]].
        -- inversion X; subst. rewrite H1, H2 in E. discriminate.
        -- exists a', b'. auto.
Qed.

(** For a date that exists, [is_date_in_school_term] answers true exactly
    when some entry of the table for the state has a window that contains
    the date, ends included; it looks through every entry of the state,
    not only the first. *)
Theorem is_date_in_school_term_spec (env : Env) (d : date) (state : string) :
  valid_date d = true ->
  (is_date_in_school_term env d state = Ret true
   <-> exists windows a b,
         In (state, windows) (termdates env) /\ In (a, b) windows
         /\ date_leb a d = true /\ date_leb d b = true)
  /\ (is_date_in_school_term env d state = Ret true
      \/ is_date_in_school_term env d state = Ret false).
Proof.
  intros Hv. unfold is_date_in_school_term.
  induction (termdates env) as [|[st windows] rest [IH1 IH2]]; simpl.
  - split; [|now right]. split; [discriminate|].
    intros [w [a [b [[] _]]]].
  - destruct (String.eqb_spec st state) as [E|N].
    + subst st. rewrite (datetime_valid d Hv). cbn [bind].
      destruct (in_term_windows d windows) eqn:W.
      * split; [|now left]. split; [|reflexivity]. intros _.
        apply in_term_windows_iff in W as [a [b [I H]]].
        exists windows, a, b. split; [now left|]. split; assumption.
      * split; [|exact IH2]. rewrite IH1. split.
        -- intros [w [a [b [I H]]]]. exists w, a, b. split; [now right|exact H].
        -- intros [w [a [b [[X|I] [Iw H]]]]].
           ++ inversion X; subst w. exfalso.
              assert (T : in_term_windows d windows = true)
                by (apply in_term_windows_iff; exists a, b; auto).
              congruence.
           ++ exists w, a, b. auto.
    + split; [|exact IH2]. rewrite IH1. split.
      * intros [w [a [b [I H]]]]. exists w, a, b. split; [now right|exact H].
      * intros [w [a [b [[X|I] H]]]].
        -- inversion X. contradiction.
        -- exists w, a, b. auto.
Qed.

(** 1 April 2021 is the last day of term one. *)
Lemma is_date_in_school_term_spec_last_day :
  is_date_in_school_term (Sample.world (mkdate 4 11 2026) true)
    (mkdate 1 4 2021) "vic" = Ret true.
Proof.
  apply (proj1 (is_date_in_school_term_spec
                  (Sample.world (mkdate 4 11 2026) true) (mkdate 1 4 2021)
                  "vic" eq_refl)).
  exists Sample.terms_2021, (mkdate 27 1 2021), (mkdate 1 4 2021).
  simpl. repeat split; auto.
Defined.

(** The facade returns the signal value only when both computations
    returned and the savings are -1; and it does return it whenever the
    cost is computed and the location of the session does not resolve. *)
Theorem get_charging_cost_unavailable (env : Env)
  (initial_state final_state capacity charger_configuration : Z)
  (start_time : clock) (start_date : date) (post_code : Z) (suburb : string) :
  (get_charging_cost env initial_state final_state capacity
     charger_configuration start_time start_date post_code suburb
   = Ret Unavailable ->
   exists total_cost money_saved,
     cost_calculation env initial_state final_state capacity
       (fst (get_power charger_configuration))
       (snd (get_power charger_configuration)) start_time start_date
       post_code = Ret total_cost
     /\ calculate_solar_energy_savings_from_any_date env initial_state
          final_state capacity (fst (get_power charger_configuration))
          (snd (get_power charger_configuration)) start_time start_date
          post_code suburb = Ret money_saved
     /\ money_saved == -1)
  /\ (forall total_cost,
        cost_calculation env initial_state final_state capacity
          (fst (get_power charger_configuration))
          (snd (get_power charger_configuration)) start_time start_date
          post_code = Ret total_cost ->
        get_location_id env post_code suburb = None ->
        get_charging_cost env initial_state final_state capacity
          charger_configuration start_time start_date post_code suburb
        = Ret Unavailable).
Proof.
  split.
  - apply unavailable_only_from_savings.
  - intros total Hcost Hloc. unfold get_charging_cost.
    destruct (get_power charger_configuration) as [power cost].
    cbn [fst snd] in Hcost. rewrite Hcost. cbn [bind].
    unfold calculate_solar_energy_savings_from_any_date. rewrite Hloc.
    reflexivity.
Qed.

(** A suburb that postcode 3000 does not list. *)
Lemma get_charging_cost_unavailable_example :
  get_charging_cost (Sample.world (mkdate 4 11 2026) true) 20 30 10 5
    (mkclock 12 0 0) (mkdate 1 6 2021) 3000 "Carlton" = Ret Unavailable.
Proof.
  apply (proj2 (get_charging_cost_unavailable
                  (Sample.world (mkdate 4 11 2026) true) 20 30 10 5
                  (mkclock 12 0 0) (mkdate 1 6 2021) 3000 "Carlton") 0.16).
  - vm_compute. reflexivity.
  - reflexivity.
Defined.

(** * A session inside one clock hour of daylight *)

Lemma py_index_nth {A : Type} (l : list A) (i : Z) (a : A) :
  (0 <= i)%Z -> nth_error l (Z.to_nat i) = Some a -> py_index l i = Ret a.
Proof.
  intros Hi Hn. unfold py_index.
  assert (Hlt : (Z.to_nat i < List.length l)%nat)
    by (apply nth_error_Some; congruence).
  replace (i <? 0)%Z with false by (symmetry; apply Z.ltb_ge; lia).
  replace (0 <=? i)%Z with true by (symmetry; apply Z.leb_le; lia).
  replace (i <? Z.of_nat (List.length l))%Z with true
    by (symmetry; apply Z.ltb_lt; lia).
  cbn [andb]. now rewrite Hn.
Qed.

Lemma savings_loop_one_window (env : Env) (power cost : Q)
  (time_required post_code : Z) (location_id : string) (start : Z)
  (current_cc : Q) (fuel : nat) (s : savings_state) :
  (0 <= start)%Z ->
  (start mod 60 + time_required < 60)%Z ->
  (start + time_required <= 1440)%Z ->
  (dy_sunrise_in_minutes (v_day s) <= start)%Z ->
  (start + time_required - 1 < dy_sunset_in_minutes (v_day s))%Z ->
  dy_dl (v_day s) <> 0%Z ->
  nth_error (dy_cc (v_day s)) (Z.to_nat (start / 60 + 1)) = Some current_cc ->
  Z.of_nat (S fuel) = (time_required - v_count s)%Z ->
  (0 <= v_count s)%Z ->
  v_current_minute s = (start + v_count s)%Z ->
  v_daylight_minutes s = v_count s ->
  v_charging_hours_spent_in_sunlight s = 0%Z ->
  v_time s = start ->
  exists s',
    savings_loop env power cost time_required post_code location_id
      (S fuel) s = Ret (Some s')
    /\ v_savings s' ==
         v_savings s
         + (power * (inject_Z time_required / 60)
            - dy_si (v_day s) * (inject_Z time_required / 60)
              / (inject_Z (dy_dl (v_day s)) / 60) * (1 - current_cc / 100)
              * 50 * 0.2)
           * (if is_peak (start + time_required - 1) then cost / 100
              else cost / (100 * 2))
           * v_date_surcharge s.
Proof.
  intros H0 Hhour Hday. revert s.
  induction fuel as [|fuel IH];
    intros s Hrise Hset Hdl Hcc Hfuel Hc Hm Hd Hw Ht.
  - assert (Hlast : v_count s = (time_required - 1)%Z) by lia.
    rewrite savings_loop_step.
    replace (v_count s <? time_required)%Z with true
      by (symmetry; apply Z.ltb_lt; lia).
    unfold savings_body, savings_rollover.
    replace (v_current_minute s =? 1440)%Z with false
      by (symmetry; apply Z.eqb_neq; lia).
    cbn [bind].
    assert (Hin : in_daylight s = true).
    { unfold in_daylight. apply andb_true_iff.
      split; apply Z.leb_le; lia. }
    assert (Hcl : closes_window time_required s = true).
    { unfold closes_window. rewrite Hin.
      replace (v_count s =? time_required - 1)%Z with true
        by (symmetry; apply Z.eqb_eq; lia).
      apply orb_true_r. }
    rewrite Hin, Hcl. unfold close_window.
    rewrite Hw, Ht, hour_index_value.
    rewrite (py_index_nth (dy_cc (v_day s)) (((0 + 1) * 60 + start) / 60)%Z
               current_cc);
      [|Z.div_mod_to_equations; lia
       |replace (((0 + 1) * 60 + start) / 60)%Z with (start / 60 + 1)%Z
          by (Z.div_mod_to_equations; lia); exact Hcc].
    cbn [bind]. unfold py_div.
    assert (Hnz : Qeq_bool (inject_Z (dy_dl (v_day s)) / 60) 0 = false).
    { destruct (Qeq_bool _ 0) eqn:E; [|reflexivity].
      apply Qeq_bool_eq in E. exfalso. apply Hdl.
      assert (E' : inject_Z (dy_dl (v_day s)) == 0).
      { setoid_replace (inject_Z (dy_dl (v_day s)))
          with (inject_Z (dy_dl (v_day s)) / 60 * 60) by field.
        rewrite E. ring. }
      unfold Qeq in E'. simpl in E'. lia. }
    rewrite Hnz. cbn [bind].
    cbn [v_charging_hours_spent_in_sunlight v_count v_savings
         v_daylight_minutes v_time v_current_minute v_date_surcharge v_day].
    eexists. split; [reflexivity|].
    cbn [v_savings]. rewrite Hm, Hd, Hlast.
    replace (time_required - 1 + 1)%Z with time_required by lia.
    replace (start + (time_required - 1))%Z
      with (start + time_required - 1)%Z by lia.
    reflexivity.
  - rewrite savings_loop_step.
    replace (v_count s <? time_required)%Z with true
      by (symmetry; apply Z.ltb_lt; lia).
    unfold savings_body, savings_rollover.
    replace (v_current_minute s =? 1440)%Z with false
      by (symmetry; apply Z.eqb_neq; lia).
    cbn [bind].
    assert (Hin : in_daylight s = true).
    { unfold in_daylight. apply andb_true_iff.
      split; apply Z.leb_le; lia. }
    assert (Hcl : closes_window time_required s = false).
    { unfold closes_window. rewrite Hin. cbn [andb].
      replace ((v_current_minute s + 1) mod 60 =? 0)%Z with false
        by (symmetry; apply Z.eqb_neq; rewrite Hm;
            Z.div_mod_to_equations; lia).
      replace (v_current_minute s =? dy_sunset_in_minutes (v_day s))%Z
        with false by (symmetry; apply Z.eqb_neq; lia).
      replace (v_count s =? time_required - 1)%Z with false
        by (symmetry; apply Z.eqb_neq; lia).
      reflexivity. }
    rewrite Hin, Hcl. cbn [bind].
    cbn [v_charging_hours_spent_in_sunlight v_count v_savings
         v_daylight_minutes v_time v_current_minute v_date_surcharge v_day].
    match goal with
    | |- exists s', savings_loop _ _ _ _ _ _ _ ?next = _ /\ _ =>
        pose proof (IH next) as G
    end.
    cbn [v_charging_hours_spent_in_sunlight v_count v_savings
         v_daylight_minutes v_time v_current_minute v_date_surcharge v_day]
      in G.
    destruct (G Hrise Hset Hdl Hcc ltac:(lia) ltac:(lia) ltac:(lia)
                ltac:(lia) Hw Ht) as [s' [L S]].
    exists s'. split; [exact L|exact S].
Qed.

(** A session that lies on its start date within daylight, inside one
    clock hour and before the sunset, closes a single window, at its last
    minute.  The window reads the cloud cover of the hour after the start
    hour, entry [start div 60 + 1], and the savings of the date are
    [(power * du - si * du / dl_hours * (1 - cc / 100) * 50 * 0.2) *
    tariff * surcharge], with [du] the session in hours and the tariff that
    of the last minute. *)
Theorem simulate_date_one_window (env : Env)
  (initial_state final_state capacity : Z) (power cost : Q)
  (start_time : clock) (post_code : Z) (location_id : string) (d : date)
  (time date_surcharge current_cc : Q) (dy : daylight) :
  let start := get_minute_from_start_time start_time in
  let time_required := py_int time in
  time_calculation (inject_Z initial_state) (inject_Z final_state)
    (inject_Z capacity) power = Ret time ->
  get_date_surcharge env d post_code = Ret date_surcharge ->
  load_daylight env location_id d = Ret (Some dy) ->
  (1 <= time_required)%Z ->
  (0 <= start)%Z ->
  (start mod 60 + time_required < 60)%Z ->
  (start + time_required <= 1440)%Z ->
  (dy_sunrise_in_minutes dy <= start)%Z ->
  (start + time_required - 1 < dy_sunset_in_minutes dy)%Z ->
  dy_dl dy <> 0%Z ->
  nth_error (dy_cc dy) (Z.to_nat (start / 60 + 1)) = Some current_cc ->
  exists savings,
    simulate_date env initial_state final_state capacity power cost
      start_time post_code location_id d = Ret (Some savings)
    /\ savings ==
         (power * (inject_Z time_required / 60)
          - dy_si dy * (inject_Z time_required / 60)
            / (inject_Z (dy_dl dy) / 60) * (1 - current_cc / 100) * 50 * 0.2)
         * (if is_peak (start + time_required - 1) then cost / 100
            else cost / (100 * 2))
         * date_surcharge.
Proof.
  intros start time_required Htime Hsf Hload HT H0 Hhour Hday Hrise Hset
    Hdl Hcc.
  unfold simulate_date. rewrite Htime. cbn [bind]. rewrite Hsf. cbn [bind].
  rewrite Hload. cbn [bind]. fold start time_required.
  destruct (Z.to_nat time_required) as [|fuel] eqn:F; [lia|].
  pose proof (savings_loop_one_window env power cost time_required post_code
                location_id start current_cc fuel
                (mksavings 0 0 0 0 start start date_surcharge dy)
                H0 Hhour Hday) as G.
  cbn [v_charging_hours_spent_in_sunlight v_count v_savings
       v_daylight_minutes v_time v_current_minute v_date_surcharge v_day]
    in G.
  destruct (G Hrise Hset Hdl Hcc ltac:(lia) ltac:(lia) ltac:(lia) eq_refl
              eq_refl eq_refl) as [s' [L S]].
  rewrite L. cbn [bind]. eexists. split; [reflexivity|].
  rewrite S. ring.
Qed.

(** Two minutes from 12:10 on the winter day: the window reads entry 13 of
    the cloud cover. *)
Lemma simulate_date_one_window_noon :
  let env := Sample.world (mkdate 4 11 2026) true in
  exists savings,
    simulate_date env 20 30 10 22 15 (mkclock 12 10 0) 3000 "loc-3000"
      (mkdate 1 6 2021) = Ret (Some savings)
    /\ savings ==
         (22 * (inject_Z 2 / 60)
          - 5.2 * (inject_Z 2 / 60) / (inject_Z 590 / 60) * (1 - 25 / 100)
            * 50 * 0.2)
         * (15 / 100) * 1.1.
Proof.
  intros env.
  destruct (load_daylight env "loc-3000" (mkdate 1 6 2021))
    as [[dy|]|] eqn:L; try (vm_compute in L; discriminate).
  assert (T : py_int (charging_minutes 20 30 10 22) = 2%Z)
    by (vm_compute; reflexivity).
  pose proof (simulate_date_one_window env 20 30 10 22 15 (mkclock 12 10 0)
                3000 "loc-3000" (mkdate 1 6 2021)
                (charging_minutes 20 30 10 22) 1.1 25 dy
                eq_refl eq_refl L) as H.
  cbv zeta in H. rewrite T in H.
  change (get_minute_from_start_time (mkclock 12 10 0)) with 730%Z in H.
  vm_compute in L. inversion L; subst dy. clear L.
  cbn [dy_sunrise_in_minutes dy_sunset_in_minutes dy_dl dy_si dy_cc] in H.
  apply H; try lia; try reflexivity.
Defined.
